(** * Financial health checker: trend detector and ten-check scorer

    A shallow embedding of [FinancialHealthChecker] from [app.py]: the
    regression-based trend test [check_trend_with_regression], the ten checks
    of [analyze_stock] and the report of [generate_detailed_analysis].

    Numbers.  The statement tables hold float64 values.  A cell is modelled
    as [option Q]: [None] is NaN (a missing value), [Some q] a finite value.
    Comparisons of finite values are exact in float64 and are exact here.
    Sums, quotients and the slope of the regression are computed exactly
    here, where float64 rounds and can overflow.  The properties proved of
    the trend test are therefore those that do not rest on the value of the
    slope: the guards, the positions that are fitted, the order in which a
    series reaches the test, the comparison of one slope with zero; and
    evaluations on a few small integers, where the sign of the slope is
    beyond rounding.  Infinite cells are outside the model; an infinity can
    only arise from the division of check 5 and is only ever rendered, which
    [npfloat] covers.  The metrics of [info] are numbers or [None].

    Exceptions.  Code that may raise returns a [result]; the [try] block of
    [analyze_stock] is a sequence of such computations, and its [except]
    clause turns [Raise e] into the failure dictionary.

    The console and desktop variants of the checker repeat the same ten
    blocks and the same trend test; they differ in how results are shown. *)

From Stdlib Require Import ZArith QArith Qabs Qround Lia Lqa String Ascii List.
From Stdlib Require Import Sorted Permutation.
From stdpp Require Import gmap strings pretty.
Import ListNotations.

Local Open Scope Q_scope.

(** ** Exact arithmetic on the finite values *)

Module Numeric.

(** NumPy's [x < y] on finite values. *)
Definition Qltb (x y : Q) : bool :=
  match x ?= y with Lt => true | _ => false end.

Definition Qnat (n : nat) : Q := inject_Z (Z.of_nat n).

Definition Qsum (l : list Q) : Q := fold_right Qplus 0 l.

Definition Qlen {A} (l : list A) : Q := Qnat (length l).

Definition Qmean (l : list Q) : Q := Qsum l / Qlen l.

End Numeric.
Import Numeric.

(** ** The trend detector *)

Module Trend.

(** A float64 slot; [None] is NaN. *)
Abbreviation cell := (option Q) (only parsing).

(** [np.isnan]. *)
Definition isnan (c : cell) : bool :=
  match c with None => true | Some _ => false end.

(** NumPy boolean-mask indexing [xs[keep]]. *)
Fixpoint mask {A} (xs : list A) (keep : list bool) : list A :=
  match xs, keep with
  | x :: xs', k :: keep' =>
      if k then x :: mask xs' keep' else mask xs' keep'
  | _, _ => []
  end.

(** [np.sum] of a boolean array. *)
Definition np_sum (bs : list bool) : nat := length (List.filter (fun b => b) bs).

(** The finite values of an array without NaN. *)
Fixpoint finite (cs : list cell) : list Q :=
  match cs with
  | [] => []
  | Some q :: rest => q :: finite rest
  | None :: rest => finite rest
  end.

(** [LinearRegression().fit(X, y).coef_[0]] for one feature and an
    intercept: the least-squares slope on the centred data, in exact
    arithmetic. *)
Definition linreg_coef (xs ys : list Q) : Q :=
  let xm := Qmean xs in
  let ym := Qmean ys in
  Qsum (map (fun p => (fst p - xm) * (snd p - ym)) (combine xs ys))
  / Qsum (map (fun x => (x - xm) * (x - xm)) xs).

(** The slope [model.coef_[0]] that [check_trend_with_regression] fits to
    the array [values] of a series with at least two valid entries. *)
Definition fitted_slope (values : list cell) : Q :=
  let years := seq 0 (length values) in
  let valid_indices := map (fun v => negb (isnan v)) values in
  let years_clean := mask years valid_indices in
  let values_clean := finite (mask values valid_indices) in
  linreg_coef (map Qnat years_clean) values_clean.

(** [check_trend_with_regression(data_series, increasing)], on the array
    [data_series.values]. *)
Definition check_trend_with_regression
    (values : list cell) (increasing : bool) : bool :=
  if (length values <? 2)%nat then false
  else
    let valid_indices := map (fun v => negb (isnan v)) values in
    if (np_sum valid_indices <? 2)%nat then false
    else
      let slope := fitted_slope values in
      if increasing then Qltb 0 slope else Qltb slope 0.

End Trend.

(** ** Python values and their rendering *)

Module Py.

(** The result of a computation that may raise: [Raise msg] carries
    [str(e)] of the exception. *)
Inductive result (A : Type) : Type :=
| Ok (a : A)
| Raise (msg : string).
Arguments Ok {A} a.
Arguments Raise {A} msg.

(** Sequencing: an exception skips the rest of the [try] block. *)
#[export] Instance result_bind : MBind result :=
  fun A B (k : A -> result B) (r : result A) =>
    match r with
    | Ok a => k a
    | Raise msg => Raise msg
    end.

(** A float64 as NumPy computes it: the outcome of a division can be NaN or
    an infinity. *)
Inductive npfloat : Type :=
| NaN
| Inf (negative : bool)
| Finite (q : Q).

Definition of_cell (c : Trend.cell) : npfloat :=
  match c with
  | None => NaN
  | Some q => Finite q
  end.

(** NumPy's [a / b] on float64: division by zero gives an infinity or NaN
    and a warning, not an exception. *)
Definition np_div (a b : Trend.cell) : npfloat :=
  match a, b with
  | Some x, Some y =>
      if Qeq_bool y 0 then
        if Qltb 0 x then Inf false
        else if Qltb x 0 then Inf true
        else NaN
      else Finite (x / y)
  | _, _ => NaN
  end.

(** [x < bound] for a finite [bound]; comparisons with NaN are false. *)
Definition np_lt (x : npfloat) (bound : Q) : bool :=
  match x with
  | NaN => false
  | Inf negative => negative
  | Finite q => Qltb q bound
  end.

(** [a > b] on cells; comparisons with NaN are false. *)
Definition cell_gt (a b : Trend.cell) : bool :=
  match a, b with
  | Some x, Some y => Qltb y x
  | _, _ => false
  end.

(** [abs]. *)
Definition cell_abs (a : Trend.cell) : Trend.cell := option_map Qabs a.

(** [a + b] on cells; NaN is absorbing. *)
Definition cell_add (a b : Trend.cell) : Trend.cell :=
  match a, b with
  | Some x, Some y => Some (x + y)
  | _, _ => None
  end.

Definition nl : string := String (ascii_of_nat 10) EmptyString.

(** Rounding to the nearest integer, ties to even, as the format
    specifications [.2f] and [.0f] round the exact value. *)
Definition round_half_even (q : Q) : Z :=
  let f := Qfloor q in
  match Qcompare (q - inject_Z f) (1 # 2) with
  | Lt => f
  | Gt => (f + 1)%Z
  | Eq => if Z.even f then f else (f + 1)%Z
  end.

Definition sign_prefix (q : Q) : string := if Qltb q 0 then "-" else "".

Definition two_digits (n : Z) : string :=
  if (n <? 10)%Z then "0" +:+ pretty n else pretty n.

(** [f"{x:.2f}"] for a float. *)
Definition format_2f (x : npfloat) : string :=
  match x with
  | NaN => "nan"
  | Inf negative => if negative then "-inf" else "inf"
  | Finite q =>
      let n := round_half_even (Qabs q * 100) in
      sign_prefix q +:+ pretty (n / 100)%Z +:+ "." +:+ two_digits (n mod 100)%Z
  end.

(** Commas between groups of three digits, on the reversed digits. *)
Fixpoint group_rev (digits : list ascii) : list ascii :=
  match digits with
  | a :: b :: c :: ((_ :: _) as rest) =>
      a :: b :: c :: ","%char :: group_rev rest
  | _ => digits
  end.

Definition thousands (n : Z) : string :=
  string_of_list_ascii
    (rev (group_rev (rev (list_ascii_of_string (pretty n))))).

(** [f"{x:,.0f}"] for a float. *)
Definition format_comma0 (x : npfloat) : string :=
  match x with
  | NaN => "nan"
  | Inf negative => if negative then "-inf" else "inf"
  | Finite q => sign_prefix q +:+ thousands (round_half_even (Qabs q))
  end.

(** ["=" * n]. *)
Fixpoint repeat_string (s : string) (n : nat) : string :=
  match n with
  | O => ""
  | S n' => s +:+ repeat_string s n'
  end.

(** A value held by the [info] dictionary or returned by a lookup with a
    string default. *)
Inductive pyobj : Type :=
| PyNone
| PyFloat (q : Q)
| PyStr (s : string).

End Py.
Import Py.

(** ** Statement tables *)

Module Frame.

(** A column label of a statement table: the date a fiscal period ends. *)
Record Timestamp : Type := { year : Z; month : Z; day : Z }.

Definition ts_leb (a b : Timestamp) : bool :=
  match (year a ?= year b)%Z with
  | Lt => true
  | Gt => false
  | Eq =>
      match (month a ?= month b)%Z with
      | Lt => true
      | Gt => false
      | Eq => (day a <=? day b)%Z
      end
  end.

(** A pandas Series indexed by period: the entries in storage order. *)
Definition Series : Type := list (Timestamp * Trend.cell).

(** [series.values]. *)
Definition values (s : Series) : list Trend.cell := map snd s.

Fixpoint insert_by_index (e : Timestamp * Trend.cell) (s : Series) : Series :=
  match s with
  | [] => [e]
  | e' :: rest =>
      if ts_leb (fst e) (fst e') then e :: s
      else e' :: insert_by_index e rest
  end.

(** [series.sort_index()]: ascending by period (periods are distinct, so the
    choice of sorting algorithm does not show). *)
Definition sort_index (s : Series) : Series :=
  fold_right insert_by_index [] s.

(** [a + b] for two rows of one table: both carry the table's columns, so
    the sum is taken entry by entry and keeps their order. *)
Definition series_add (a b : Series) : Series :=
  map (fun p => (fst (fst p), cell_add (snd (fst p)) (snd (snd p))))
      (combine a b).

(** A statement table as yfinance returns it: one column per period, most
    recent first, and one row of cells per line item. *)
Record DataFrame : Type := {
  columns : list Timestamp;
  rows : gmap string (list Trend.cell)
}.

(** Every row has one cell per column. *)
Definition df_wf (df : DataFrame) : Prop :=
  map_Forall (fun _ row => length row = length (columns df)) (rows df).

(** [df.empty]: some axis has length zero. *)
Definition empty (df : DataFrame) : bool :=
  (size (rows df) =? 0)%nat || (length (columns df) =? 0)%nat.

(** [name in df.index]. *)
Definition in_index (name : string) (df : DataFrame) : bool :=
  match rows df !! name with
  | Some _ => true
  | None => false
  end.

(** [df.loc[name]]; a missing label raises [KeyError(name)]. *)
Definition loc (df : DataFrame) (name : string) : result Series :=
  match rows df !! name with
  | Some row => Ok (combine (columns df) row)
  | None => Raise ("'" +:+ name +:+ "'")
  end.

(** [series.iloc[0]]. *)
Definition iloc0 (s : Series) : result Trend.cell :=
  match s with
  | e :: _ => Ok (snd e)
  | [] => Raise "single positional indexer is out-of-bounds"
  end.

(** [df.iloc[:, 0]]: the first column, a Series indexed by line item. *)
Definition iloc_col0 (df : DataFrame) : result (gmap string Trend.cell) :=
  match columns df with
  | _ :: _ => Ok (omap head (rows df))
  | [] => Raise "single positional indexer is out-of-bounds"
  end.

(** [column.get(name, None)]: [None] is Python's [None], [Some c] a cell. *)
Definition get (column : gmap string Trend.cell) (name : string)
  : option Trend.cell :=
  column !! name.

End Frame.
Import Frame.

(** ** The data provider *)

Module Yf.

(** What [yf.Ticker(ticker)] gives access to.  Each property fetches on
    access and may raise; [info] maps metric names to numbers or [None]. *)
Record Ticker : Type := {
  info : result (gmap string (option Q));
  financials : result DataFrame;
  balance_sheet : result DataFrame;
  cashflow : result DataFrame
}.

End Yf.

(** ** The health scorer *)

Module Scorer.
Import Trend.

Local Open Scope string_scope.

(** One entry of [checks]. *)
Record CheckResult : Type := {
  id : Z;
  name : string;
  description : string;
  passed : bool;
  details : string
}.

(** The dictionary [analyze_stock] returns: [success] true with [checks] and
    [detailedAnalysis], or [success] false with [error]. *)
Inductive AnalysisResult : Type :=
| Success (checks : list CheckResult) (detailedAnalysis : string)
| Failure (error : string).

(** [info.get(key, None)]. *)
Definition info_get (info : gmap string (option Q)) (key : string) : option Q :=
  match info !! key with
  | Some v => v
  | None => None
  end.

(** Truthiness of a number or [None]. *)
Definition truthy (v : option Q) : bool :=
  match v with
  | Some q => negb (Qeq_bool q 0)
  | None => false
  end.

(** Check 1: P/E and PEG. *)
Definition check1 (info : gmap string (option Q)) : CheckResult :=
  let pe_ratio := info_get info "trailingPE" in
  let peg_ratio := info_get info "trailingPegRatio" in
  let pe_good :=
    match pe_ratio with Some pe => Qltb pe 25 | None => false end in
  let peg_good :=
    match peg_ratio with Some peg => Qltb peg 1 | None => false end in
  let check1_pass := pe_good || peg_good in
  let pe_text :=
    if truthy pe_ratio then "PE: " +:+ format_2f (of_cell pe_ratio)
    else "PE: N/A" in
  let peg_text :=
    if truthy peg_ratio then "PEG: " +:+ format_2f (of_cell peg_ratio)
    else "PEG: N/A" in
  {| id := 1;
     name := "P/E < 25 || PEG < 1.0";
     description := "Valuation metrics";
     passed := check1_pass;
     details := pe_text +:+ ", " +:+ peg_text |}.

(** The block shared by checks 2, 3, 4, 7 and 8: the trend of one line item
    over the periods in ascending order. *)
Definition trend_check (df : DataFrame) (item : string) (increasing : bool)
    (yes no : string) : result (bool * string) :=
  if negb (empty df) && in_index item df then
    row ← loc df item;
    let data := sort_index row in
    let pass := check_trend_with_regression (values data) increasing in
    Ok (pass, if pass then yes else no)
  else Ok (false, "No data available").

Definition check2 (financials : DataFrame) : result CheckResult :=
  '(check2_pass, revenue_details) ←
    trend_check financials "Total Revenue" true
      "Positive trend detected" "No clear growth trend";
  Ok {| id := 2;
        name := "Revenue Growth";
        description := "5-year increasing trend";
        passed := check2_pass;
        details := revenue_details |}.

Definition check3 (financials : DataFrame) : result CheckResult :=
  '(check3_pass, op_details) ←
    trend_check financials "Operating Income" true
      "Consistent growth pattern" "Declining or flat trend";
  Ok {| id := 3;
        name := "Operating Income Growth";
        description := "5-year increasing trend";
        passed := check3_pass;
        details := op_details |}.

Definition check4 (financials : DataFrame) : result CheckResult :=
  '(check4_pass, net_details) ←
    trend_check financials "Net Income" true
      "Strong profitability trend" "Declining profitability";
  Ok {| id := 4;
        name := "Net Income Growth";
        description := "5-year increasing trend";
        passed := check4_pass;
        details := net_details |}.

(** Check 5: current assets against current liabilities. *)
Definition check5 (balance_sheet : DataFrame) : result CheckResult :=
  '(check5_pass, liquidity_details) ←
    (if negb (empty balance_sheet) then
       latest_bs ← iloc_col0 balance_sheet;
       let current_assets := get latest_bs "Current Assets" in
       let current_liabilities := get latest_bs "Current Liabilities" in
       match current_assets, current_liabilities with
       | Some assets, Some liabilities =>
           let pass := cell_gt assets liabilities in
           let ratio := np_div assets liabilities in
           Ok (pass,
               if pass then "Current ratio: " +:+ format_2f ratio
               else "Poor liquidity - ratio: " +:+ format_2f ratio)
       | _, _ => Ok (false, "Balance sheet data incomplete")
       end
     else Ok (false, "No data available"));
  Ok {| id := 5;
        name := "Current Assets > Current Liabilities";
        description := "Liquidity position";
        passed := check5_pass;
        details := liquidity_details |}.

(** The branch of check 6 that is taken.  [Ratio] is the only one that
    divides: it holds the dividend and the divisor of
    [long_term_debt / latest_net_income]. *)
Inductive Check6Branch : Type :=
| NoData
| Insufficient
| Ratio (long_term_debt : cell) (latest_net_income : Q).

Definition check6_branch (balance_sheet financials : DataFrame)
  : result Check6Branch :=
  if negb (empty balance_sheet) && negb (empty financials) then
    latest_bs ← iloc_col0 balance_sheet;
    let long_term_debt := get latest_bs "Long Term Debt" in
    if in_index "Net Income" financials then
      row ← loc financials "Net Income";
      latest_net_income ← iloc0 row;
      match long_term_debt, latest_net_income with
      | Some debt, Some income =>
          if Qltb 0 income then Ok (Ratio debt income) else Ok Insufficient
      | _, _ => Ok Insufficient
      end
    else Ok NoData
  else Ok NoData.

(** Check 6: long-term debt against the latest net income. *)
Definition check6 (balance_sheet financials : DataFrame)
  : result CheckResult :=
  branch ← check6_branch balance_sheet financials;
  let '(check6_pass, debt_details) :=
    match branch with
    | NoData => (false, "No data available")
    | Insufficient => (false, "Insufficient data for calculation")
    | Ratio long_term_debt latest_net_income =>
        let debt_ratio := np_div long_term_debt (Some latest_net_income) in
        let pass := np_lt debt_ratio 4 in
        (pass,
         if pass then "Debt/Profit ratio: " +:+ format_2f debt_ratio
         else "High debt ratio: " +:+ format_2f debt_ratio)
    end in
  Ok {| id := 6;
        name := "Long-term Debt/Net Profit < 4";
        description := "Debt management";
        passed := check6_pass;
        details := debt_details |}.

Definition check7 (balance_sheet : DataFrame) : result CheckResult :=
  '(check7_pass, equity_details) ←
    trend_check balance_sheet "Stockholders Equity" true
      "Growing shareholder value" "Declining equity trend";
  Ok {| id := 7;
        name := "Stockholders' Equity Growth";
        description := "5-year increasing trend";
        passed := check7_pass;
        details := equity_details |}.

Definition check8 (balance_sheet : DataFrame) : result CheckResult :=
  '(check8_pass, shares_details) ←
    trend_check balance_sheet "Ordinary Shares Number" false
      "Active share repurchase program" "No significant buyback activity";
  Ok {| id := 8;
        name := "Shares Outstanding Decreasing";
        description := "Share buyback trend";
        passed := check8_pass;
        details := shares_details |}.

(** [operating_cf is not None and other is not None and
    operating_cf > abs(other)]. *)
Definition op_exceeds (operating_cf other : option cell) : bool :=
  match operating_cf, other with
  | Some op, Some o => cell_gt op (cell_abs o)
  | _, _ => false
  end.

(** Check 9: operating cash flow against investing and financing. *)
Definition check9 (cashflow : DataFrame) : result CheckResult :=
  '(check9_pass, cf_details) ←
    (if negb (empty cashflow) then
       latest_cf ← iloc_col0 cashflow;
       let operating_cf := get latest_cf "Operating Cash Flow" in
       let investing_cf := get latest_cf "Investing Cash Flow" in
       let financing_cf := get latest_cf "Financing Cash Flow" in
       let op_vs_inv := op_exceeds operating_cf investing_cf in
       let op_vs_fin := op_exceeds operating_cf financing_cf in
       let pass := op_vs_inv && op_vs_fin in
       Ok (pass,
           if pass then "Strong operational cash generation"
           else "Weak cash flow position")
     else Ok (false, "No data available"));
  Ok {| id := 9;
        name := "Operating CF > Investing & Financing CF";
        description := "Cash flow strength";
        passed := check9_pass;
        details := cf_details |}.

(** Check 10: free cash flow, reported or derived. *)
Definition check10 (cashflow : DataFrame) : result CheckResult :=
  '(check10_pass, fcf_details) ←
    (if negb (empty cashflow) then
       if in_index "Free Cash Flow" cashflow then
         row ← loc cashflow "Free Cash Flow";
         let fcf_data := sort_index row in
         let pass := check_trend_with_regression (values fcf_data) true in
         Ok (pass,
             if pass then "Consistent FCF improvement"
             else "Declining free cash flow")
       else if in_index "Operating Cash Flow" cashflow
               && in_index "Capital Expenditures" cashflow then
         operating_cf ← loc cashflow "Operating Cash Flow";
         capex ← loc cashflow "Capital Expenditures";
         let fcf_calculated := series_add operating_cf capex in
         let pass :=
           check_trend_with_regression (values fcf_calculated) true in
         Ok (pass,
             if pass then "Improving calculated FCF"
             else "Declining calculated FCF")
       else Ok (false, "No data available")
     else Ok (false, "No data available"));
  Ok {| id := 10;
        name := "Free Cash Flow Growth";
        description := "5-year increasing trend";
        passed := check10_pass;
        details := fcf_details |}.

(** The ten blocks in the order of the code; an exception in one of them
    leaves the [try] block. *)
Definition run_checks (info : gmap string (option Q))
    (financials balance_sheet cashflow : DataFrame)
  : result (list CheckResult) :=
  let c1 := check1 info in
  c2 ← check2 financials;
  c3 ← check3 financials;
  c4 ← check4 financials;
  c5 ← check5 balance_sheet;
  c6 ← check6 balance_sheet financials;
  c7 ← check7 balance_sheet;
  c8 ← check8 balance_sheet;
  c9 ← check9 cashflow;
  c10 ← check10 cashflow;
  Ok [c1; c2; c3; c4; c5; c6; c7; c8; c9; c10].

(** *** The report and the entry point *)

Section Analysis.

(** [str(x)] of a float, the shortest decimal string that reads back as the
    same float64; the exact value alone does not determine it. *)
Variable float_str : Q -> string.

(** [yf.Ticker]. *)
Variable yf_Ticker : string -> result Yf.Ticker.

(** [info.get(key, 'N/A')]. *)
Definition info_get_na (info : gmap string (option Q)) (key : string)
  : pyobj :=
  match info !! key with
  | Some (Some q) => PyFloat q
  | Some None => PyNone
  | None => PyStr "N/A"
  end.

(** [column.get(name, 'N/A')]. *)
Definition get_na (column : gmap string cell) (name : string) : pyobj + cell :=
  match column !! name with
  | Some c => inr c
  | None => inl (PyStr "N/A")
  end.

(** [f"{x}"]. *)
Definition py_str (x : pyobj) : string :=
  match x with
  | PyNone => "None"
  | PyFloat q => float_str q
  | PyStr s => s
  end.

(** [f"{x:,.0f}"]: only numbers accept the format. *)
Definition py_format_comma0 (x : pyobj) : result string :=
  match x with
  | PyFloat q => Ok (format_comma0 (Finite q))
  | PyNone => Raise "unsupported format string passed to NoneType.__format__"
  | PyStr _ => Raise "Unknown format code 'f' for object of type 'str'"
  end.

(** [x != 'N/A']. *)
Definition not_na (x : pyobj) : bool :=
  match x with
  | PyStr s => negb (String.eqb s "N/A")
  | _ => true
  end.

(** The loop over [series.items()]: one line per entry that is not NaN. *)
Fixpoint series_lines (indent unit : string) (s : Series) : string :=
  match s with
  | [] => ""
  | (date, value) :: rest =>
      match value with
      | Some v =>
          indent +:+ pretty (year date) +:+ ": " +:+ unit
          +:+ format_comma0 (Finite v) +:+ nl +:+ series_lines indent unit rest
      | None => series_lines indent unit rest
      end
  end.

(** A section listing one line item over the periods. *)
Definition series_section (df : DataFrame) (item missing : string)
  : result string :=
  if negb (empty df) && in_index item df then
    row ← loc df item;
    Ok (series_lines "   " "$" (sort_index row))
  else Ok ("   " +:+ missing +:+ nl).

(** A line for one value of the latest column. *)
Definition latest_line (column : gmap string cell) (item label : string)
  : string :=
  match get_na column item with
  | inr c => "   " +:+ label +:+ "$" +:+ format_comma0 (of_cell c) +:+ nl
  | inl _ => "   " +:+ label +:+ "N/A" +:+ nl
  end.

Definition generate_detailed_analysis (ticker : string)
    (info : gmap string (option Q))
    (financials balance_sheet cashflow : DataFrame) : result string :=
  let analysis := "STOCK ANALYSIS FOR " +:+ ticker +:+ nl in
  let analysis := analysis +:+ repeat_string "=" 60 +:+ nl +:+ nl in
  let pe_ratio := info_get_na info "trailingPE" in
  let peg_ratio := info_get_na info "trailingPegRatio" in
  let analysis :=
    analysis +:+ "1. Latest PE Ratio: " +:+ py_str pe_ratio +:+ nl in
  let analysis :=
    analysis +:+ "   PEG Ratio: " +:+ py_str peg_ratio +:+ nl +:+ nl in
  let analysis := analysis +:+ "2. Revenue for the past 5 years:" +:+ nl in
  sec ← series_section financials "Total Revenue" "Revenue data not available";
  let analysis := analysis +:+ sec +:+ nl in
  let analysis :=
    analysis +:+ "3. Operating Income for the past 5 years:" +:+ nl in
  sec ← series_section financials "Operating Income"
          "Operating Income data not available";
  let analysis := analysis +:+ sec +:+ nl in
  let analysis := analysis +:+ "4. Net Income for the past 5 years:" +:+ nl in
  sec ← series_section financials "Net Income" "Net Income data not available";
  let analysis := analysis +:+ sec +:+ nl in
  let analysis :=
    analysis +:+ "5. Latest Current Assets and Current Liabilities:" +:+ nl in
  sec ←
    (if negb (empty balance_sheet) then
       latest_bs ← iloc_col0 balance_sheet;
       Ok (latest_line latest_bs "Current Assets" "Current Assets: "
           +:+ latest_line latest_bs "Current Liabilities"
                 "Current Liabilities: ")
     else Ok ("   Balance sheet data not available" +:+ nl));
  let analysis := analysis +:+ sec +:+ nl in
  let analysis := analysis +:+ "6. Latest Long Term Debt:" +:+ nl in
  sec ←
    (if negb (empty balance_sheet) then
       latest_bs ← iloc_col0 balance_sheet;
       Ok (latest_line latest_bs "Long Term Debt" "")
     else Ok ("   Balance sheet data not available" +:+ nl));
  let analysis := analysis +:+ sec +:+ nl in
  let analysis :=
    analysis +:+ "7. Stockholders' Equity for the past 5 years:" +:+ nl in
  sec ← series_section balance_sheet "Stockholders Equity"
          "Stockholders' Equity data not available";
  let analysis := analysis +:+ sec +:+ nl in
  let analysis :=
    analysis +:+ "8. Shares Outstanding for the past 5 years:" +:+ nl in
  let shares_outstanding := info_get_na info "sharesOutstanding" in
  sec ←
    (if not_na shares_outstanding then
       text ← py_format_comma0 shares_outstanding;
       Ok ("   Latest: " +:+ text +:+ nl)
     else Ok ("   Current shares outstanding not available" +:+ nl));
  let analysis := analysis +:+ sec in
  sec ←
    (if negb (empty balance_sheet)
        && in_index "Ordinary Shares Number" balance_sheet then
       row ← loc balance_sheet "Ordinary Shares Number";
       Ok (series_lines "   " "" (sort_index row))
     else Ok "");
  let analysis := analysis +:+ sec +:+ nl in
  let analysis := analysis +:+ "9. Latest Cash Flow Data:" +:+ nl in
  sec ←
    (if negb (empty cashflow) then
       latest_cf ← iloc_col0 cashflow;
       Ok (latest_line latest_cf "Operating Cash Flow" "Operating Cash Flow: "
           +:+ latest_line latest_cf "Investing Cash Flow"
                 "Investing Cash Flow: "
           +:+ latest_line latest_cf "Financing Cash Flow"
                 "Financing Cash Flow: ")
     else Ok ("   Cash flow data not available" +:+ nl));
  let analysis := analysis +:+ sec +:+ nl in
  let analysis :=
    analysis +:+ "10. Free Cash Flow for the past 5 years:" +:+ nl in
  sec ←
    (if negb (empty cashflow) then
       if in_index "Free Cash Flow" cashflow then
         row ← loc cashflow "Free Cash Flow";
         Ok (series_lines "    " "$" (sort_index row))
       else if in_index "Operating Cash Flow" cashflow
               && in_index "Capital Expenditures" cashflow then
         operating_cf ← loc cashflow "Operating Cash Flow";
         capex ← loc cashflow "Capital Expenditures";
         let fcf_calculated := series_add operating_cf capex in
         let fcf_sorted := sort_index fcf_calculated in
         Ok ("    (Calculated as Operating Cash Flow - Capital Expenditures)"
             +:+ nl +:+ series_lines "    " "$" fcf_sorted)
       else Ok ("    Free Cash Flow data not available" +:+ nl)
     else Ok ("    Cash flow data not available" +:+ nl));
  let analysis := analysis +:+ sec +:+ nl in
  Ok analysis.

(** The body of the [try] block of [analyze_stock]. *)
Definition analyze_stock_body (ticker : string)
  : result (list CheckResult * string) :=
  stock ← yf_Ticker ticker;
  info ← Yf.info stock;
  if (size info <? 5)%nat then Raise ("No data found for ticker " +:+ ticker)
  else
    financials ← Yf.financials stock;
    balance_sheet ← Yf.balance_sheet stock;
    cashflow ← Yf.cashflow stock;
    checks ← run_checks info financials balance_sheet cashflow;
    detailed_analysis ←
      generate_detailed_analysis ticker info financials balance_sheet cashflow;
    Ok (checks, detailed_analysis).

(** [analyze_stock]: every exception becomes the failure dictionary. *)
Definition analyze_stock (ticker : string) : AnalysisResult :=
  match analyze_stock_body ticker with
  | Ok (checks, detailed_analysis) => Success checks detailed_analysis
  | Raise e => Failure e
  end.

End Analysis.

End Scorer.

(** ** Notions used to state the properties of the scorer *)

Module ScorerAux.
Import Trend Scorer.

Local Open Scope string_scope.

(** An entry stands no later than another. *)
Definition period_le (e e' : Timestamp * cell) : Prop :=
  ts_leb (fst e) (fst e') = true.

(** The latest-period value of a line item when it is present: the table
    is not empty, the line item is a row of it, and the cell of the first
    (most recent) column is not NaN. *)
Definition latest_value (df : DataFrame) (item : string) : option Q :=
  if empty df then None
  else
    match rows df !! item with
    | Some (Some q :: _) => Some q
    | _ => None
    end.

(** Pass condition of check 6 in the words of the specification. *)
Definition debt_manageable (balance_sheet financials : DataFrame) : Prop :=
  exists debt income : Q,
    latest_value balance_sheet "Long Term Debt" = Some debt
    /\ latest_value financials "Net Income" = Some income
    /\ 0 < income
    /\ debt / income < 4.

(** One comparison of check 9 in the words of the specification: both
    operands present and operating cash flow above the absolute value of the
    other flow. *)
Definition operating_exceeds (cashflow : DataFrame) (other : string) : Prop :=
  exists op o : Q,
    latest_value cashflow "Operating Cash Flow" = Some op
    /\ latest_value cashflow other = Some o
    /\ Qabs o < op.

(** The ways in which obtaining the data fails before any check runs. *)
Inductive RetrievalFails (yf_Ticker : string -> result Yf.Ticker)
    (ticker : string) : string -> Prop :=
| ticker_raises e :
    yf_Ticker ticker = Raise e -> RetrievalFails yf_Ticker ticker e
| info_raises stock e :
    yf_Ticker ticker = Ok stock -> Yf.info stock = Raise e ->
    RetrievalFails yf_Ticker ticker e
| info_unrecognised stock info :
    yf_Ticker ticker = Ok stock -> Yf.info stock = Ok info ->
    (size info < 5)%nat ->
    RetrievalFails yf_Ticker ticker ("No data found for ticker " +:+ ticker)
| statement_raises stock info e :
    yf_Ticker ticker = Ok stock -> Yf.info stock = Ok info ->
    (5 <= size info)%nat ->
    (Yf.financials stock = Raise e
     \/ (exists f, Yf.financials stock = Ok f
                   /\ Yf.balance_sheet stock = Raise e)
     \/ (exists f b, Yf.financials stock = Ok f
                     /\ Yf.balance_sheet stock = Ok b
                     /\ Yf.cashflow stock = Raise e)) ->
    RetrievalFails yf_Ticker ticker e.

(** Sample data for the examples: fiscal years ending 31 December. *)
Definition fy (y : Z) : Timestamp := {| year := y; month := 12; day := 31 |}.

Definition frame (cols : list Z) (lines : list (string * list cell))
  : DataFrame :=
  {| columns := map fy cols; rows := list_to_map lines |}.

Definition no_frame : DataFrame := frame [] [].

(** A cash-flow table without a free-cash-flow row, most recent period
    first: operating cash flow 100 then 150, capital expenditures -20 then
    -30, in the order of time. *)
Definition cf_derived : DataFrame :=
  frame [2023; 2022]%Z
    [("Operating Cash Flow", [Some 150; Some 100]);
     ("Capital Expenditures", [Some (-30); Some (-20)])].

(** The same table with the columns oldest first. *)
Definition cf_derived_ascending : DataFrame :=
  frame [2022; 2023]%Z
    [("Operating Cash Flow", [Some 100; Some 150]);
     ("Capital Expenditures", [Some (-20); Some (-30)])].

(** A metrics dictionary with the five entries retrieval asks for. *)
Definition sample_info (pe peg : option Q) : gmap string (option Q) :=
  list_to_map
    [("trailingPE", pe); ("trailingPegRatio", peg); ("marketCap", Some 1000);
     ("beta", Some 1); ("sharesOutstanding", Some 50)].

(** The same dictionary with the number of shares reported as [None]. *)
Definition info_no_shares : gmap string (option Q) :=
  <["sharesOutstanding" := None]> (sample_info (Some 20) None).

(** A company with three fiscal years of statements. *)
Definition sample_financials : DataFrame :=
  frame [2023; 2022; 2021]%Z
    [("Total Revenue", [Some 3000; Some 2000; Some 1000]);
     ("Operating Income", [Some 300; None; Some 100]);
     ("Net Income", [Some 200; Some 150; Some 100])].

Definition sample_balance_sheet : DataFrame :=
  frame [2023; 2022; 2021]%Z
    [("Current Assets", [Some 500; Some 450; Some 400]);
     ("Current Liabilities", [Some 300; Some 300; Some 300]);
     ("Long Term Debt", [Some 1000; Some 1100; Some 1200]);
     ("Stockholders Equity", [Some 900; Some 800; Some 700]);
     ("Ordinary Shares Number", [Some 90; Some 95; Some 100])].

Definition sample_cashflow : DataFrame :=
  frame [2023; 2022; 2021]%Z
    [("Operating Cash Flow", [Some 100; Some 90; Some 80]);
     ("Investing Cash Flow", [Some (-50); Some (-40); Some (-30)]);
     ("Financing Cash Flow", [Some (-60); Some (-50); Some (-40)]);
     ("Free Cash Flow", [Some 1234567; Some (2469 # 2); Some 60])].

Definition stock_of (info : gmap string (option Q))
    (financials balance_sheet cashflow : DataFrame) : Yf.Ticker :=
  {| Yf.info := Ok info;
     Yf.financials := Ok financials;
     Yf.balance_sheet := Ok balance_sheet;
     Yf.cashflow := Ok cashflow |}.

End ScorerAux.

(** ** Auxiliary notions for the regression proofs *)

Module TrendAux.
Import Trend.

(** The points [(position, value)] the regression is fitted to: the valid
    entries of [values] paired with their positions, counted from [k]. *)
Fixpoint points_from (k : nat) (values : list cell) : list (Q * Q) :=
  match values with
  | [] => []
  | None :: rest => points_from (S k) rest
  | Some v :: rest => (Qnat k, v) :: points_from (S k) rest
  end.

Definition sum_x (pts : list (Q * Q)) : Q := Qsum (map fst pts).
Definition sum_y (pts : list (Q * Q)) : Q := Qsum (map snd pts).
Definition sum_xy (pts : list (Q * Q)) : Q :=
  Qsum (map (fun p => fst p * snd p) pts).

(** [n * Sum xy - Sum x * Sum y], the numerator of the least-squares slope
    up to the positive factor [n]. *)
Definition cross (pts : list (Q * Q)) : Q :=
  Qlen pts * sum_xy pts - sum_x pts * sum_y pts.

(** Every later point lies strictly to the right of every earlier one, and
    above it ([s = 1]) or below it ([s = -1]). *)
Fixpoint trending (s : Q) (pts : list (Q * Q)) : Prop :=
  match pts with
  | [] => True
  | p :: rest =>
      Forall (fun q => fst p < fst q /\ 0 < s * (snd q - snd p)) rest
      /\ trending s rest
  end.

(** The points [(x, x)]. *)
Definition diag (xs : list Q) : list (Q * Q) := map (fun x => (x, x)) xs.

(** The original zero-based positions of the non-missing entries. *)
Definition valid_positions (values : list cell) : list Q :=
  map fst (points_from 0 values).

(** The series [values] with the missing entries dropped. *)
Definition drop_missing (values : list cell) : list cell :=
  map Some (finite values).

End TrendAux.

(** ** The console variant

    [financial_health_console.py]: the same ten blocks without details, the
    results as pairs of a description and a flag, and a score printed by
    [display_results].  What the functions print is returned as a string;
    descriptions are ASCII, so the width of a field is its number of
    bytes. *)

Module Console.
Import Trend.

Local Open Scope string_scope.

(** [f"{s:<width}"]. *)
Definition ljust (width : nat) (s : string) : string :=
  s +:+ repeat_string " " (width - String.length s).

(** [f"{s:>width}"]. *)
Definition rjust (width : nat) (s : string) : string :=
  repeat_string " " (width - String.length s) +:+ s.

(** [f"{s:^width}"]: the smaller half of the padding goes to the left. *)
Definition center (width : nat) (s : string) : string :=
  let pad := (width - String.length s)%nat in
  repeat_string " " (pad / 2) +:+ s +:+ repeat_string " " (pad - pad / 2).

(** [f"{x:.1f}"]. *)
Definition format_1f (q : Q) : string :=
  let n := round_half_even (Qabs q * 10) in
  sign_prefix q +:+ pretty (n / 10)%Z +:+ "." +:+ pretty (n mod 10)%Z.

(** The block of checks 2, 3, 4, 7 and 8. *)
Definition trend_pass (df : DataFrame) (item : string) (increasing : bool)
  : result bool :=
  if negb (empty df) && in_index item df then
    row ← loc df item;
    let data := sort_index row in
    Ok (check_trend_with_regression (values data) increasing)
  else Ok false.

(** Block 5: [check5_pass]. *)
Definition check5_pass (balance_sheet : DataFrame) : result bool :=
  if negb (empty balance_sheet) then
    latest_bs ← iloc_col0 balance_sheet;
    let current_assets := get latest_bs "Current Assets" in
    let current_liabilities := get latest_bs "Current Liabilities" in
    match current_assets, current_liabilities with
    | Some assets, Some liabilities => Ok (cell_gt assets liabilities)
    | _, _ => Ok false
    end
  else Ok false.

(** Block 6: [check6_pass]. *)
Definition check6_pass (balance_sheet financials : DataFrame)
  : result bool :=
  if negb (empty balance_sheet) && negb (empty financials) then
    latest_bs ← iloc_col0 balance_sheet;
    let long_term_debt := get latest_bs "Long Term Debt" in
    if in_index "Net Income" financials then
      row ← loc financials "Net Income";
      latest_net_income ← iloc0 row;
      match long_term_debt, latest_net_income with
      | Some debt, Some income =>
          if Qltb 0 income then
            let debt_ratio := np_div debt (Some income) in
            Ok (np_lt debt_ratio 4)
          else Ok false
      | _, _ => Ok false
      end
    else Ok false
  else Ok false.

(** Block 9: [check9_pass]. *)
Definition check9_pass (cashflow : DataFrame) : result bool :=
  if negb (empty cashflow) then
    latest_cf ← iloc_col0 cashflow;
    let operating_cf := get latest_cf "Operating Cash Flow" in
    let investing_cf := get latest_cf "Investing Cash Flow" in
    let financing_cf := get latest_cf "Financing Cash Flow" in
    let op_vs_inv :=
      match operating_cf, investing_cf with
      | Some op, Some inv => cell_gt op (cell_abs inv)
      | _, _ => false
      end in
    let op_vs_fin :=
      match operating_cf, financing_cf with
      | Some op, Some fin => cell_gt op (cell_abs fin)
      | _, _ => false
      end in
    Ok (op_vs_inv && op_vs_fin)
  else Ok false.

(** Block 10: [check10_pass]. *)
Definition check10_pass (cashflow : DataFrame) : result bool :=
  if negb (empty cashflow) then
    if in_index "Free Cash Flow" cashflow then
      row ← loc cashflow "Free Cash Flow";
      let fcf_data := sort_index row in
      Ok (check_trend_with_regression (values fcf_data) true)
    else if in_index "Operating Cash Flow" cashflow
            && in_index "Capital Expenditures" cashflow then
      operating_cf ← loc cashflow "Operating Cash Flow";
      capex ← loc cashflow "Capital Expenditures";
      let fcf_calculated := series_add operating_cf capex in
      Ok (check_trend_with_regression (values fcf_calculated) true)
    else Ok false
  else Ok false.

(** Block 1: the description and [check1_pass]. *)
Definition valuation (info : gmap string (option Q)) : string * bool :=
  let pe_ratio := Scorer.info_get info "trailingPE" in
  let peg_ratio := Scorer.info_get info "trailingPegRatio" in
  let pe_good :=
    match pe_ratio with Some pe => Qltb pe 25 | None => false end in
  let peg_good :=
    match peg_ratio with Some peg => Qltb peg 1 | None => false end in
  let check1_pass := pe_good || peg_good in
  let pe_text :=
    if Scorer.truthy pe_ratio then "PE: " +:+ format_2f (of_cell pe_ratio)
    else "PE: N/A" in
  let peg_text :=
    if Scorer.truthy peg_ratio then "PEG: " +:+ format_2f (of_cell peg_ratio)
    else "PEG: N/A" in
  ("1. Valuation (" +:+ pe_text +:+ ", " +:+ peg_text +:+ ")", check1_pass).

(** The ten blocks of the console [analyze_stock], in the order of the
    code. *)
Definition run_checks (info : gmap string (option Q))
    (financials balance_sheet cashflow : DataFrame)
  : result (list (string * bool)) :=
  let r1 := valuation info in
  check2_pass ← trend_pass financials "Total Revenue" true;
  check3_pass ← trend_pass financials "Operating Income" true;
  check4_pass ← trend_pass financials "Net Income" true;
  check5_pass ← check5_pass balance_sheet;
  check6_pass ← check6_pass balance_sheet financials;
  check7_pass ← trend_pass balance_sheet "Stockholders Equity" true;
  check8_pass ← trend_pass balance_sheet "Ordinary Shares Number" false;
  check9_pass ← check9_pass cashflow;
  check10_pass ← check10_pass cashflow;
  Ok [r1;
      ("2. Revenue Growth Trend", check2_pass);
      ("3. Operating Income Growth Trend", check3_pass);
      ("4. Net Income Growth Trend", check4_pass);
      ("5. Current Assets > Current Liabilities", check5_pass);
      ("6. Long-term Debt/Net Profit < 4", check6_pass);
      ("7. Stockholders' Equity Growth Trend", check7_pass);
      ("8. Shares Outstanding Decreasing Trend", check8_pass);
      ("9. Operating CF > Investing & Financing CF", check9_pass);
      ("10. Free Cash Flow Growth Trend", check10_pass)].

(** [sum(1 for _, passed in results if passed)]. *)
Definition passed_count (results : list (string * bool)) : nat :=
  length (List.filter snd results).

(** [len(results)]. *)
Definition total_count (results : list (string * bool)) : nat :=
  length results.

(** [(passed_count/total_count*100) if total_count > 0 else 0]. *)
Definition percentage (results : list (string * bool)) : Q :=
  if (0 <? total_count results)%nat then
    Qnat (passed_count results) / Qnat (total_count results) * 100
  else 0.

Definition assessment (results : list (string * bool)) : string :=
  let percentage := percentage results in
  if Qle_bool 80 percentage then "EXCELLENT - Strong financial health"
  else if Qle_bool 60 percentage then "GOOD - Solid financial position"
  else if Qle_bool 40 percentage then "FAIR - Some concerns present"
  else "POOR - Significant financial risks".

(** One line of the loop over the results. *)
Definition result_line (r : string * bool) : string :=
  let '(description, passed) := r in
  let symbol := if passed then "✓" else "✗" in
  let status := if passed then "PASS" else "FAIL" in
  symbol +:+ " " +:+ ljust 60 description +:+ " [" +:+ rjust 6 status +:+ "]"
  +:+ nl.

(** What [display_results] prints. *)
Definition display_results (results : list (string * bool)) : string :=
  nl +:+ center 80 "FINANCIAL HEALTH CHECK RESULTS" +:+ nl
  +:+ repeat_string "=" 80 +:+ nl
  +:+ String.concat "" (map result_line results)
  +:+ repeat_string "=" 80 +:+ nl
  +:+ "FINANCIAL HEALTH SCORE: " +:+ pretty (passed_count results) +:+ "/"
  +:+ pretty (total_count results) +:+ " ("
  +:+ format_1f (percentage results) +:+ "%)" +:+ nl
  +:+ "ASSESSMENT: " +:+ assessment results +:+ nl
  +:+ repeat_string "=" 80 +:+ nl.

Section Run.

(** [str.upper]. *)
Variable upper : string -> string.

(** [yf.Ticker]. *)
Variable yf_Ticker : string -> result Yf.Ticker.

(** The four property reads at the head of the [try] block. *)
Definition retrieve (ticker : string)
  : result (gmap string (option Q) * DataFrame * DataFrame * DataFrame) :=
  stock ← yf_Ticker ticker;
  info ← Yf.info stock;
  financials ← Yf.financials stock;
  balance_sheet ← Yf.balance_sheet stock;
  cashflow ← Yf.cashflow stock;
  Ok (info, financials, balance_sheet, cashflow).

Definition error_line (ticker e : string) : string :=
  "Error analyzing " +:+ ticker +:+ ": " +:+ e +:+ nl.

(** The console [analyze_stock]: what it prints and what it returns. *)
Definition analyze_stock (ticker : string)
  : string * list (string * bool) :=
  match retrieve ticker with
  | Raise e => (error_line ticker e, [])
  | Ok (info, financials, balance_sheet, cashflow) =>
      let header :=
        nl +:+ repeat_string "=" 80 +:+ nl
        +:+ "FINANCIAL HEALTH ANALYSIS FOR " +:+ upper ticker +:+ nl
        +:+ repeat_string "=" 80 +:+ nl in
      match run_checks info financials balance_sheet cashflow with
      | Raise e => (header +:+ error_line ticker e, [])
      | Ok results => (header +:+ display_results results, results)
      end
  end.

End Run.

End Console.

(** ** Further notions for the statement tables *)

Module FrameOrder.


(** The five checks that test the trend of one line item, with the line
    item and the direction each of them asks for. *)
Definition trend_checks
  : list (string * bool * (DataFrame -> result Scorer.CheckResult)) :=
  [("Total Revenue"%string, true, Scorer.check2);
   ("Operating Income"%string, true, Scorer.check3);
   ("Net Income"%string, true, Scorer.check4);
   ("Stockholders Equity"%string, true, Scorer.check7);
   ("Ordinary Shares Number"%string, false, Scorer.check8)].

End FrameOrder.

(** ** Notions used to compare the two variants *)

Module VariantAux.

(** A block of the web checker and the block of the console checker with
    the same number behave alike: the same flag, or the same exception. *)
Definition agree (web : result Scorer.CheckResult) (console : result bool)
  : Prop :=
  match web, console with
  | Ok c, Ok pass => Scorer.passed c = pass
  | Raise e, Raise e' => e = e'
  | _, _ => False
  end.

End VariantAux.


(** * Properties *)

(** ** Arithmetic helpers *)

Module NumericFacts.

Lemma Qltb_lt x y : Qltb x y = true <-> x < y.
Proof.
  unfold Qltb. rewrite Qlt_alt. destruct (x ?= y); split; congruence.
Qed.

Lemma Qltb_nlt x y : Qltb x y = false <-> ~ x < y.
Proof.
  rewrite <- Qltb_lt. destruct (Qltb x y); split; congruence.
Qed.

#[export] Instance Qltb_proper : Proper (Qeq ==> Qeq ==> eq) Qltb.
Proof.
  intros x x' Hx y y' Hy. unfold Qltb. now rewrite Hx, Hy.
Qed.

Lemma Qnat_S n : Qnat (S n) == 1 + Qnat n.
Proof.
  unfold Qnat. rewrite Nat2Z.inj_succ, <- Z.add_1_l, inject_Z_plus.
  reflexivity.
Qed.

Lemma Qnat_nonneg n : 0 <= Qnat n.
Proof.
  unfold Qnat. change 0 with (inject_Z 0). rewrite <- Zle_Qle. lia.
Qed.

Lemma Qnat_lt n m : (n < m)%nat -> Qnat n < Qnat m.
Proof.
  intros H. unfold Qnat. rewrite <- Zlt_Qlt. lia.
Qed.

Lemma Qlen_cons {A} (a : A) l : Qlen (a :: l) == 1 + Qlen l.
Proof. apply Qnat_S. Qed.

End NumericFacts.
Import NumericFacts.

(** ** The trend detector: properties *)

Module TrendFacts.
Import Trend TrendAux.

Example trend_up :
  check_trend_with_regression [Some 1; Some 2; Some 4] true = true.
Proof. reflexivity. Qed.

Example trend_gap :
  check_trend_with_regression [Some 0; Some 6; None; Some 1] false = true.
Proof. reflexivity. Qed.

(** *** Sums over points *)

Lemma sum_shifted (a b : Q) (pts : list (Q * Q)) :
  Qsum (map (fun p => (fst p - a) * (snd p - b)) pts)
  == sum_xy pts - a * sum_y pts - b * sum_x pts + Qlen pts * a * b.
Proof.
  unfold sum_xy, sum_y, sum_x.
  induction pts as [|p pts IH]; simpl.
  - unfold Qlen, Qnat; simpl. ring.
  - rewrite IH, Qlen_cons. ring.
Qed.

Lemma cross_cons (p : Q * Q) (pts : list (Q * Q)) :
  cross (p :: pts)
  == cross pts + Qsum (map (fun q => (fst q - fst p) * (snd q - snd p)) pts).
Proof.
  rewrite sum_shifted. unfold cross, sum_xy, sum_x, sum_y.
  rewrite Qlen_cons. simpl. ring.
Qed.

Lemma Qsum_pos_terms (f : Q * Q -> Q) (pts : list (Q * Q)) :
  Forall (fun q => 0 < f q) pts -> pts <> [] -> 0 < Qsum (map f pts).
Proof.
  induction 1 as [|q pts Hq Hall IH]; intros Hne; [congruence|].
  simpl. destruct pts as [|q' pts'].
  - simpl. lra.
  - assert (0 < Qsum (map f (q' :: pts'))) by (apply IH; congruence). lra.
Qed.

Lemma Qsum_nonneg_terms (f : Q * Q -> Q) (pts : list (Q * Q)) :
  Forall (fun q => 0 <= f q) pts -> 0 <= Qsum (map f pts).
Proof.
  induction 1 as [|q pts Hq Hall IH]; simpl; lra.
Qed.

Lemma Qsum_scale (s : Q) (f : Q * Q -> Q) (pts : list (Q * Q)) :
  Qsum (map (fun q => s * f q) pts) == s * Qsum (map f pts).
Proof.
  induction pts as [|p pts IH]; simpl; [ring | rewrite IH; ring].
Qed.

(** Chebyshev's sum inequality in the form needed here. *)
Lemma cross_trending_nonneg (s : Q) (pts : list (Q * Q)) :
  trending s pts -> 0 <= s * cross pts.
Proof.
  induction pts as [|p pts IH]; intros Hr.
  - unfold cross, sum_xy, sum_x, sum_y, Qlen, Qnat; simpl. lra.
  - destruct Hr as [Hall Hr]. rewrite cross_cons.
    specialize (IH Hr).
    pose proof (Qsum_scale s (fun q => (fst q - fst p) * (snd q - snd p)) pts) as Hs.
    cbv beta in Hs.
    assert (0 <= Qsum (map (fun q => s * ((fst q - fst p) * (snd q - snd p))) pts)).
    { apply Qsum_nonneg_terms. eapply Forall_impl; [exact Hall|].
      intros q [Hx Hy]. simpl. nra. }
    lra.
Qed.

Lemma cross_trending_pos (s : Q) (pts : list (Q * Q)) :
  trending s pts -> (2 <= length pts)%nat -> 0 < s * cross pts.
Proof.
  destruct pts as [|p [|q pts]]; simpl; intros Hr Hlen; try lia.
  destruct Hr as [Hall Hr]. rewrite cross_cons.
  pose proof (cross_trending_nonneg s (q :: pts) Hr) as Hnn.
  pose proof (Qsum_scale s (fun r => (fst r - fst p) * (snd r - snd p)) (q :: pts)) as Hs.
  cbv beta in Hs.
  assert (0 < Qsum (map (fun r => s * ((fst r - fst p) * (snd r - snd p))) (q :: pts))).
  { apply Qsum_pos_terms; [|congruence]. eapply Forall_impl; [exact Hall|].
    intros r [Hx Hy]. simpl. nra. }
  lra.
Qed.

(** *** From the arrays of the code to points *)

Lemma years_clean_points (k : nat) (values : list cell) :
  map Qnat (mask (seq k (length values)) (map (fun v => negb (isnan v)) values))
  = map fst (points_from k values).
Proof.
  revert k. induction values as [|[v|] rest IH]; intros k; simpl.
  - reflexivity.
  - now rewrite IH.
  - apply IH.
Qed.

Lemma values_clean_points (k : nat) (values : list cell) :
  finite (mask values (map (fun v => negb (isnan v)) values))
  = map snd (points_from k values).
Proof.
  revert k. induction values as [|[v|] rest IH]; intros k; simpl.
  - reflexivity.
  - now rewrite (IH (S k)).
  - apply IH.
Qed.

Lemma finite_points (k : nat) (values : list cell) :
  map snd (points_from k values) = finite values.
Proof.
  revert k. induction values as [|[v|] rest IH]; intros k; simpl.
  - reflexivity.
  - now rewrite (IH (S k)).
  - apply IH.
Qed.

Lemma np_sum_valid (values : list cell) :
  np_sum (map (fun v => negb (isnan v)) values) = length (finite values).
Proof.
  unfold np_sum.
  induction values as [|[v|] rest IH]; simpl; auto.
Qed.

Lemma fitted_slope_points (values : list cell) :
  fitted_slope values
  = linreg_coef (map fst (points_from 0 values)) (map snd (points_from 0 values)).
Proof.
  unfold fitted_slope.
  now rewrite years_clean_points, (values_clean_points 0).
Qed.

Lemma combine_fst_snd {A B} (l : list (A * B)) :
  combine (map fst l) (map snd l) = l.
Proof.
  induction l as [|[a b] l IH]; simpl; congruence.
Qed.

(** *** The slope in closed form *)

Lemma cross_diag (a : Q) (xs : list Q) :
  Qsum (map (fun x => (x - a) * (x - a)) xs)
  = Qsum (map (fun p => (fst p - a) * (snd p - a)) (diag xs)).
Proof.
  unfold diag. now rewrite map_map.
Qed.

Lemma Qlen_pos {A} (l : list A) : l <> [] -> 0 < Qlen l.
Proof.
  destruct l as [|a l]; [congruence|]. intros _.
  rewrite Qlen_cons. pose proof (Qnat_nonneg (length l)). unfold Qlen. lra.
Qed.

Lemma centred_sum (pts : list (Q * Q)) :
  pts <> [] ->
  Qsum (map (fun p => (fst p - sum_x pts / Qlen pts) * (snd p - sum_y pts / Qlen pts)) pts)
  == cross pts / Qlen pts.
Proof.
  intros Hne. rewrite sum_shifted. unfold cross.
  pose proof (Qlen_pos pts Hne). field. lra.
Qed.

Lemma sum_diag (xs : list Q) :
  sum_x (diag xs) = Qsum xs /\ sum_y (diag xs) = Qsum xs
  /\ Qlen (diag xs) = Qlen xs.
Proof.
  unfold sum_x, sum_y, diag, Qlen. rewrite !map_map, length_map. simpl.
  now rewrite map_id.
Qed.

Lemma linreg_coef_cross (pts : list (Q * Q)) :
  pts <> [] ->
  linreg_coef (map fst pts) (map snd pts)
  == (cross pts / Qlen pts) / (cross (diag (map fst pts)) / Qlen pts).
Proof.
  intros Hne. unfold linreg_coef. rewrite combine_fst_snd.
  assert (Hd : diag (map fst pts) <> []).
  { destruct pts; [congruence | discriminate]. }
  pose proof (centred_sum pts Hne) as Hn.
  pose proof (centred_sum (diag (map fst pts)) Hd) as Hdn.
  destruct (sum_diag (map fst pts)) as (Hx & Hy & Hl).
  rewrite Hx, Hy, Hl in Hdn.
  rewrite cross_diag. unfold Qmean.
  assert (Hlen : Qlen (map fst pts) = Qlen pts).
  { unfold Qlen. now rewrite length_map. }
  assert (Hlen' : Qlen (map snd pts) = Qlen pts).
  { unfold Qlen. now rewrite length_map. }
  rewrite Hlen in *. rewrite Hlen'.
  change (Qsum (map fst pts)) with (sum_x pts) in *.
  change (Qsum (map snd pts)) with (sum_y pts).
  now rewrite Hn, Hdn.
Qed.

(** *** The guards and the slope *)

Lemma finite_length (values : list cell) :
  (length (finite values) <= length values)%nat.
Proof.
  induction values as [|[v|] rest IH]; simpl; lia.
Qed.

Lemma points_length (k : nat) (values : list cell) :
  length (points_from k values) = length (finite values).
Proof.
  now rewrite <- (finite_points k), length_map.
Qed.

Lemma points_after (k k' : nat) (P : Q -> Prop) (values : list cell) :
  (k < k')%nat -> Forall P (finite values) ->
  Forall (fun q => Qnat k < fst q /\ P (snd q)) (points_from k' values).
Proof.
  intros Hk. revert k' Hk.
  induction values as [|[v|] rest IH]; intros k' Hk Hall; simpl in *.
  - constructor.
  - inversion Hall; subst. constructor.
    + split; [now apply Qnat_lt | assumption].
    + apply IH; [lia | assumption].
  - apply IH; [lia | assumption].
Qed.

Lemma trending_positions (k : nat) (values : list cell) :
  trending 1 (diag (map fst (points_from k values))).
Proof.
  revert k. induction values as [|[v|] rest IH]; intros k; simpl.
  - exact I.
  - split; [|apply IH].
    unfold diag. rewrite !Forall_map. simpl.
    pose proof (points_after k (S k) (fun _ => True) rest) as H.
    eapply Forall_impl; [apply H; [lia|]|].
    + clear. induction (finite rest); constructor; auto.
    + intros q [Hq _]. simpl. lra.
  - apply IH.
Qed.

(** With at least two valid entries the fitted slope is the quotient of two
    cross sums, and the one of the positions is positive. *)
Lemma fitted_slope_cross (values : list cell) :
  (2 <= length (finite values))%nat ->
  0 < cross (diag (map fst (points_from 0 values)))
  /\ fitted_slope values * cross (diag (map fst (points_from 0 values)))
     == cross (points_from 0 values).
Proof.
  intros Hlen. rewrite fitted_slope_points.
  set (pts := points_from 0 values).
  assert (Hpl : length pts = length (finite values)) by apply points_length.
  assert (Hne : pts <> []) by (destruct pts; simpl in Hpl; [lia | congruence]).
  pose proof (cross_trending_pos 1 (diag (map fst pts))
                (trending_positions 0 values)) as Hd.
  assert (Hdl : length (diag (map fst pts)) = length pts).
  { unfold diag. now rewrite !length_map. }
  rewrite Hdl in Hd. specialize (Hd ltac:(lia)).
  pose proof (Qlen_pos pts Hne) as Hn.
  split; [lra|].
  rewrite (linreg_coef_cross pts Hne). field. lra.
Qed.

(** [check_trend_with_regression] once both guards are passed. *)
Lemma check_trend_slope (values : list cell) (increasing : bool) :
  (2 <= length (finite values))%nat ->
  check_trend_with_regression values increasing
  = if increasing then Qltb 0 (fitted_slope values)
    else Qltb (fitted_slope values) 0.
Proof.
  intros Hlen. unfold check_trend_with_regression.
  pose proof (finite_length values).
  destruct (Nat.ltb_spec (length values) 2); [lia|].
  rewrite np_sum_valid.
  destruct (Nat.ltb_spec (length (finite values)) 2); [lia|]. reflexivity.
Qed.

Lemma check_trend_few (values : list cell) (increasing : bool) :
  (length (finite values) < 2)%nat ->
  check_trend_with_regression values increasing = false.
Proof.
  intros Hlen. unfold check_trend_with_regression.
  destruct (length values <? 2)%nat; [reflexivity|].
  rewrite np_sum_valid.
  destruct (Nat.ltb_spec (length (finite values)) 2); [reflexivity | lia].
Qed.

(** *** Verdicts of the trend detector *)

(** C6: a series with fewer than two non-missing points (the empty series
    and the all-missing series included) gets the verdict [false] in both
    directions; the function returns a verdict, it does not fail. *)
Theorem few_points_no_trend (values : list cell) (increasing : bool) :
  (length (finite values) < 2)%nat ->
  check_trend_with_regression values increasing = false.
Proof.
  intros Hfew. unfold check_trend_with_regression.
  destruct (Nat.ltb_spec (length values) 2) as [Hshort | Hlong].
  - reflexivity.
  - pose proof (np_sum_valid values) as Hsum.
    destruct (Nat.ltb_spec
                (np_sum (map (fun v => negb (isnan v)) values)) 2)
      as [Hinvalid | Hvalid].
    + reflexivity.
    + rewrite Hsum in Hvalid. lia.
Qed.

Lemma few_points_no_trend_witness :
  check_trend_with_regression [None; Some 5; None] true = false
  /\ check_trend_with_regression [] false = false
  /\ check_trend_with_regression [None; None; None] false = false.
Proof.
  split; [|split]; apply few_points_no_trend; simpl; lia.
Defined.

(** *** Missing entries and positions *)

Lemma cross_shift (t u : Q) (pts pts' : list (Q * Q)) :
  Forall2 (fun p q => fst q == fst p + t /\ snd q == snd p + u) pts pts' ->
  cross pts' == cross pts.
Proof.
  intros Hrel.
  assert (Hs : Qlen pts' == Qlen pts
               /\ sum_x pts' == sum_x pts + Qlen pts * t
               /\ sum_y pts' == sum_y pts + Qlen pts * u
               /\ sum_xy pts' == sum_xy pts + u * sum_x pts + t * sum_y pts
                                 + Qlen pts * t * u).
  { unfold sum_x, sum_y, sum_xy.
    induction Hrel as [|p q pts pts' [Hx Hy] _ (IHn & IHx & IHy & IHxy)]; simpl.
    - unfold Qlen, Qnat; simpl. repeat split; ring.
    - rewrite !Qlen_cons, IHn, IHx, IHy, IHxy, Hx, Hy. repeat split; ring. }
  destruct Hs as (Hn & Hx & Hy & Hxy).
  unfold cross. rewrite Hn, Hx, Hy, Hxy. ring.
Qed.

Lemma Qnat_add (a k : nat) : Qnat (a + k) == Qnat k + Qnat a.
Proof.
  unfold Qnat. rewrite Nat2Z.inj_add, inject_Z_plus. ring.
Qed.

Lemma points_shift_rel (a k : nat) (values : list cell) :
  Forall2 (fun p q => fst q == fst p + Qnat a /\ snd q == snd p + 0)
          (points_from k values) (points_from (a + k) values).
Proof.
  revert k. induction values as [|[v|] rest IH]; intros k; simpl.
  - constructor.
  - constructor.
    + simpl. split; [apply Qnat_add | ring].
    + rewrite <- Nat.add_succ_r. apply IH.
  - rewrite <- Nat.add_succ_r. apply IH.
Qed.

Lemma diag_shift_rel (t : Q) (pts pts' : list (Q * Q)) :
  Forall2 (fun p q => fst q == fst p + t /\ snd q == snd p + 0) pts pts' ->
  Forall2 (fun p q => fst q == fst p + t /\ snd q == snd p + t)
          (diag (map fst pts)) (diag (map fst pts')).
Proof.
  induction 1 as [|p q pts pts' [Hx _] _ IH]; simpl; constructor; auto.
Qed.

Lemma points_leading (a k : nat) (values : list cell) :
  points_from k (repeat None a ++ values) = points_from (a + k) values.
Proof.
  revert k. induction a as [|a IH]; intros k; simpl; [reflexivity|].
  rewrite IH. now rewrite Nat.add_succ_r.
Qed.

Lemma points_trailing (b k : nat) (values : list cell) :
  points_from k (values ++ repeat None b) = points_from k values.
Proof.
  revert k. induction values as [|[v|] rest IH]; intros k; simpl.
  - revert k. induction b as [|b IHb]; intros k; simpl; auto.
  - now rewrite IH.
  - apply IH.
Qed.

Lemma finite_some (ys : list Q) : finite (map Some ys) = ys.
Proof.
  induction ys as [|y ys IH]; simpl; congruence.
Qed.

Lemma finite_padded (a b : nat) (ys : list Q) :
  finite (repeat None a ++ map Some ys ++ repeat None b) = ys.
Proof.
  rewrite <- (finite_points 0), app_assoc, points_trailing, points_leading.
  now rewrite finite_points, finite_some.
Qed.

(** Missing entries before the first or after the last value do not change
    the fitted slope. *)
Lemma fitted_slope_padded (a b : nat) (ys : list Q) :
  (2 <= length ys)%nat ->
  fitted_slope (repeat None a ++ map Some ys ++ repeat None b)
  == fitted_slope (map Some ys).
Proof.
  intros Hlen.
  set (padded := repeat None a ++ map Some ys ++ repeat None b).
  assert (Hp : (2 <= length (finite padded))%nat)
    by (unfold padded; now rewrite finite_padded).
  assert (Hs : (2 <= length (finite (map Some ys)))%nat)
    by now rewrite finite_some.
  destruct (fitted_slope_cross padded Hp) as [Hd Hq].
  destruct (fitted_slope_cross (map Some ys) Hs) as [Hd' Hq'].
  assert (Hpts : points_from 0 padded = points_from (a + 0) (map Some ys)).
  { unfold padded. now rewrite app_assoc, points_trailing, points_leading. }
  pose proof (points_shift_rel a 0 (map Some ys)) as Hrel.
  rewrite <- Hpts in Hrel.
  pose proof (cross_shift _ _ _ _ Hrel) as Hc.
  pose proof (cross_shift _ _ _ _ (diag_shift_rel _ _ _ Hrel)) as Hdd.
  rewrite Hc, Hdd in Hq. rewrite Hdd in Hd.
  set (d := cross (diag (map fst (points_from 0 (map Some ys))))) in *.
  assert (Hz : (fitted_slope padded - fitted_slope (map Some ys)) * d == 0).
  { lra. }
  destruct (Qmult_integral _ _ Hz) as [Hm | Hd0]; lra.
Qed.

(** C4, as the code has it: the entries with a missing value are dropped,
    and the least-squares line is fitted to the remaining values against
    their original zero-based positions in the full series, the positions of
    dropped entries being skipped, not renumbered.  The verdict is that of
    the series without its missing entries whenever the missing entries
    stand before the first or after the last value. *)
Theorem trend_keeps_original_positions :
  (forall (values : list cell) (increasing : bool),
     check_trend_with_regression values increasing
     = if (length (finite values) <? 2)%nat then false
       else
         let slope := linreg_coef (valid_positions values) (finite values) in
         if increasing then Qltb 0 slope else Qltb slope 0)
  /\ (forall (a b : nat) (ys : list Q) (increasing : bool),
        drop_missing (repeat None a ++ map Some ys ++ repeat None b)
        = map Some ys
        /\ check_trend_with_regression
             (repeat None a ++ map Some ys ++ repeat None b) increasing
           = check_trend_with_regression (map Some ys) increasing).
Proof.
  split.
  - intros values increasing.
    destruct (Nat.ltb_spec (length (finite values)) 2) as [Hlt | Hge].
    + now apply check_trend_few.
    + rewrite check_trend_slope by exact Hge.
      rewrite fitted_slope_points, (finite_points 0). reflexivity.
  - intros a b ys increasing. unfold drop_missing.
    rewrite finite_padded. split; [reflexivity|].
    destruct (Nat.ltb_spec (length ys) 2) as [Hlt | Hge].
    + rewrite !check_trend_few; rewrite ?finite_padded, ?finite_some; auto.
    + rewrite !check_trend_slope
        by (rewrite ?finite_padded, ?finite_some; exact Hge).
      destruct increasing;
        now rewrite (fitted_slope_padded a b ys Hge).
Qed.

(** C4 as stated does not hold: with a gap in the series the verdict is not
    that of the series without its missing entries. *)
Lemma trend_not_invariant_under_dropping :
  ~ (forall (values : list cell) (increasing : bool),
       check_trend_with_regression values increasing
       = check_trend_with_regression (drop_missing values) increasing).
Proof.
  intros H.
  specialize (H [Some 0; Some 6; None; Some 1] true).
  vm_compute in H. discriminate H.
Qed.

Example trend_gap_positions :
  valid_positions [Some 0; Some 6; None; Some 1] = [0; 1; 3]
  /\ drop_missing [Some 0; Some 6; None; Some 1] = [Some 0; Some 6; Some 1]
  /\ check_trend_with_regression [Some 0; Some 6; None; Some 1] true = false
  /\ check_trend_with_regression [Some 0; Some 6; Some 1] true = true.
Proof. repeat split. Qed.

End TrendFacts.

(** ** The health scorer: properties *)

Module ScorerFacts.
Import Trend Scorer ScorerAux.

Local Open Scope string_scope.

(** Runs the sequencing of the [try] block as far as the results are
    known. *)
Ltac run := cbn [mbind result_bind negb andb].

(** *** Reading the latest column *)

Lemma empty_false_columns (df : DataFrame) :
  empty df = false -> exists c cs, columns df = c :: cs.
Proof.
  unfold empty. destruct (columns df) as [|c cs]; simpl.
  - rewrite orb_true_r. discriminate.
  - eauto.
Qed.

Lemma iloc_col0_ok (df : DataFrame) :
  empty df = false -> iloc_col0 df = Ok (omap head (rows df)).
Proof.
  intros He. destruct (empty_false_columns df He) as (c & cs & Hc).
  unfold iloc_col0. now rewrite Hc.
Qed.

Lemma get_latest (df : DataFrame) (item : string) :
  get (omap head (rows df)) item = rows df !! item ≫= head.
Proof. unfold get. apply lookup_omap. Qed.

(** The value [latest_value] speaks of is the one the code reads with
    [df.iloc[:, 0].get(item, None)]. *)
Lemma latest_value_get (df : DataFrame) (item : string) :
  empty df = false ->
  latest_value df item
  = match get (omap head (rows df)) item with
    | Some (Some q) => Some q
    | _ => None
    end.
Proof.
  intros He. unfold latest_value. rewrite He, get_latest.
  destruct (rows df !! item) as [[|[q|] rest]|]; reflexivity.
Qed.

Lemma latest_value_empty (df : DataFrame) (item : string) :
  empty df = true -> latest_value df item = None.
Proof. intros He. unfold latest_value. now rewrite He. Qed.

(** *** Sorting by period *)

Lemma ts_leb_total (a b : Timestamp) : ts_leb a b = false -> ts_leb b a = true.
Proof.
  unfold ts_leb. rewrite (Z.compare_antisym (year a) (year b)).
  rewrite (Z.compare_antisym (month a) (month b)).
  destruct (year a ?= year b)%Z; simpl; try congruence.
  destruct (month a ?= month b)%Z; simpl; try congruence.
  intros H. apply Z.leb_gt in H. apply Z.leb_le. lia.
Qed.

Lemma insert_by_index_perm (e : Timestamp * cell) (s : Series) :
  Permutation (e :: s) (insert_by_index e s).
Proof.
  induction s as [|e' s IH]; simpl; [reflexivity|].
  destruct (ts_leb (fst e) (fst e')); [reflexivity|].
  rewrite <- IH. apply perm_swap.
Qed.

Lemma insert_by_index_sorted (e : Timestamp * cell) (s : Series) :
  Sorted period_le s -> Sorted period_le (insert_by_index e s).
Proof.
  induction 1 as [|e' s Hs IH Hhd]; simpl.
  - repeat constructor.
  - destruct (ts_leb (fst e) (fst e')) eqn:Hle.
    + repeat constructor; assumption.
    + constructor; [exact IH|].
      destruct s as [|e'' s]; simpl.
      * constructor. now apply ts_leb_total.
      * destruct (ts_leb (fst e) (fst e'')); constructor.
        -- now apply ts_leb_total.
        -- now inversion Hhd.
Qed.

(** [sort_index] rearranges the entries into ascending period order. *)
Lemma sort_index_sorted (s : Series) :
  Sorted period_le (sort_index s) /\ Permutation s (sort_index s).
Proof.
  induction s as [|e s [IHs IHp]]; simpl.
  - split; constructor.
  - split.
    + now apply insert_by_index_sorted.
    + rewrite <- insert_by_index_perm. now constructor.
Qed.

(** *** Check 9 *)

Lemma op_exceeds_spec (cashflow : DataFrame) (other : string) :
  empty cashflow = false ->
  op_exceeds (get (omap head (rows cashflow)) "Operating Cash Flow")
             (get (omap head (rows cashflow)) other) = true
  <-> operating_exceeds cashflow other.
Proof.
  intros He. unfold operating_exceeds.
  rewrite !(latest_value_get _ _ He).
  destruct (get (omap head (rows cashflow)) "Operating Cash Flow")
    as [[op|]|];
    destruct (get (omap head (rows cashflow)) other) as [[o|]|]; simpl;
    (split; [intros H | intros (op' & o' & Hop & Ho & H)]);
    try discriminate.
  - apply Qltb_lt in H. eauto.
  - injection Hop as <-. injection Ho as <-. now apply Qltb_lt.
Qed.

Lemma operating_exceeds_present (cashflow : DataFrame) (other : string) :
  operating_exceeds cashflow other ->
  latest_value cashflow "Operating Cash Flow" <> None
  /\ latest_value cashflow other <> None.
Proof.
  intros (op & o & Hop & Ho & _). rewrite Hop, Ho. split; discriminate.
Qed.

Lemma check9_decision (cashflow : DataFrame) :
  exists c,
    check9 cashflow = Ok c
    /\ id c = 9%Z
    /\ (passed c = true
        <-> operating_exceeds cashflow "Investing Cash Flow"
            /\ operating_exceeds cashflow "Financing Cash Flow").
Proof.
  unfold check9. destruct (empty cashflow) eqn:He; simpl.
  - eexists. split; [reflexivity|]. split; [reflexivity|]. simpl.
    split; [discriminate|]. intros [(op & o & Hop & _) _].
    rewrite latest_value_empty in Hop by exact He. discriminate.
  - rewrite (iloc_col0_ok _ He). simpl.
    eexists. split; [reflexivity|]. split; [reflexivity|]. simpl.
    rewrite andb_true_iff, !(op_exceeds_spec _ _ He). reflexivity.
Qed.

(** C9: check 9 passes exactly when the latest operating cash flow exceeds
    the absolute value of the latest investing cash flow and that of the
    latest financing cash flow, each comparison needing both of its operands
    present; with an operand missing its comparison is false, so the check
    fails. *)
Theorem cash_flow_strength (cashflow : DataFrame) :
  exists c,
    check9 cashflow = Ok c
    /\ id c = 9%Z
    /\ (passed c = true
        <-> operating_exceeds cashflow "Investing Cash Flow"
            /\ operating_exceeds cashflow "Financing Cash Flow")
    /\ (latest_value cashflow "Operating Cash Flow" = None
        \/ latest_value cashflow "Investing Cash Flow" = None
        \/ latest_value cashflow "Financing Cash Flow" = None ->
        passed c = false).
Proof.
  destruct (check9_decision cashflow) as (c & Hc & Hid & Hpass).
  exists c. split; [exact Hc|]. split; [exact Hid|]. split; [exact Hpass|].
  intros Hmiss. destruct (passed c) eqn:Hp; [|reflexivity].
  destruct (proj1 Hpass eq_refl) as [Hinv Hfin].
  destruct (operating_exceeds_present _ _ Hinv) as [Hop Hi].
  destruct (operating_exceeds_present _ _ Hfin) as [_ Hf].
  destruct Hmiss as [Hm | [Hm | Hm]]; congruence.
Qed.

(** The example of the specification: 100 against -50 and -60 passes. *)
Example cash_flow_strength_example :
  let cashflow :=
    frame [2023]%Z
      [("Operating Cash Flow", [Some 100]);
       ("Investing Cash Flow", [Some (-50)]);
       ("Financing Cash Flow", [Some (-60)])] in
  passed <$> (match check9 cashflow with Ok c => Some c | Raise _ => None end)
  = Some true.
Proof. reflexivity. Qed.

(** *** Check 6 *)

Lemma wf_row_nonempty (df : DataFrame) (item : string) (row : list cell) :
  df_wf df -> empty df = false -> rows df !! item = Some row ->
  exists c rest, row = c :: rest.
Proof.
  intros Hwf He Hrow.
  destruct (empty_false_columns df He) as (t & ts & Hcols).
  pose proof (map_Forall_lookup_1 _ _ _ _ Hwf Hrow) as Hlen.
  simpl in Hlen. rewrite Hcols in Hlen.
  destruct row as [|c rest]; [discriminate | eauto].
Qed.

Lemma frame_wf (cols : list Z) (lines : list (string * list cell)) :
  Forall (fun line => length (snd line) = length cols) lines ->
  df_wf (frame cols lines).
Proof.
  unfold df_wf, frame. simpl. rewrite length_map.
  induction 1 as [|[item row] lines Hrow _ IH]; simpl.
  - apply map_Forall_empty.
  - apply map_Forall_insert_2; assumption.
Qed.

Lemma check6_branch_eq (balance_sheet financials : DataFrame) :
  df_wf financials ->
  check6_branch balance_sheet financials
  = Ok (if empty balance_sheet || empty financials then NoData
        else
          match rows financials !! "Net Income" with
          | None => NoData
          | Some row =>
              match get (omap head (rows balance_sheet)) "Long Term Debt",
                    head row with
              | Some debt, Some (Some income) =>
                  if Qltb 0 income then Ratio debt income else Insufficient
              | _, _ => Insufficient
              end
          end).
Proof.
  intros Hwf. unfold check6_branch.
  destruct (empty balance_sheet) eqn:Hb; simpl; [reflexivity|].
  destruct (empty financials) eqn:Hf; simpl; [reflexivity|].
  rewrite (iloc_col0_ok _ Hb). simpl.
  unfold in_index, loc.
  destruct (rows financials !! "Net Income") as [row|] eqn:Hrow;
    [|reflexivity].
  destruct (wf_row_nonempty _ _ _ Hwf Hf Hrow) as (c & rest & ->).
  destruct (empty_false_columns _ Hf) as (t & ts & ->). simpl.
  destruct (get (omap head (rows balance_sheet)) "Long Term Debt")
    as [debt|]; destruct c as [income|]; try reflexivity.
  destruct (Qltb 0 income); reflexivity.
Qed.

Lemma np_lt_ratio (debt : cell) (income : Q) :
  0 < income ->
  np_lt (np_div debt (Some income)) 4 = true
  <-> exists d, debt = Some d /\ d / income < 4.
Proof.
  intros Hpos. destruct debt as [d|]; simpl.
  - destruct (Qeq_bool income 0) eqn:Hz.
    + apply Qeq_bool_iff in Hz. lra.
    + simpl. rewrite Qltb_lt. split; [eauto|].
      now intros (d' & [= <-] & H).
  - split; [discriminate|]. now intros (d' & [=] & _).
Qed.

(** Check 6 decides as the specification says: it passes exactly when the
    latest long-term debt is present, the latest net income is present and
    positive, and their quotient is below 4; and the division is evaluated
    only on the branch guarded by a positive net income. *)
Lemma debt_check_decision (balance_sheet financials : DataFrame) :
  df_wf financials ->
  exists c,
    check6 balance_sheet financials = Ok c
    /\ id c = 6%Z
    /\ (passed c = true <-> debt_manageable balance_sheet financials)
    /\ (forall debt income,
          check6_branch balance_sheet financials = Ok (Ratio debt income) ->
          0 < income
          /\ latest_value financials "Net Income" = Some income).
Proof.
  intros Hwf. unfold check6. rewrite (check6_branch_eq _ _ Hwf).
  unfold debt_manageable, latest_value. simpl.
  destruct (empty balance_sheet) eqn:Hb; simpl.
  { eexists. repeat split; simpl; try discriminate.
    now intros (d & n & [=] & _). }
  destruct (empty financials) eqn:Hf; simpl.
  { eexists. repeat split; simpl; try discriminate.
    now intros (d & n & _ & [=] & _). }
  rewrite get_latest.
  destruct (rows financials !! "Net Income") as [[|[income|] rest]|];
    simpl.
  1,3,4: destruct (rows balance_sheet !! "Long Term Debt" ≫= head);
         eexists; repeat split; simpl; try discriminate;
         now intros (d & n & _ & [=] & _).
  destruct (rows balance_sheet !! "Long Term Debt") as [[|debt rest']|];
    simpl.
  1,3: eexists; repeat split; simpl; try discriminate;
       now intros (d & n & [=] & _).
  destruct (Qltb 0 income) eqn:Hpos.
  - apply Qltb_lt in Hpos.
    eexists. split; [reflexivity|]. split; [reflexivity|]. simpl. split.
    + rewrite (np_lt_ratio debt income Hpos). split.
      * intros (d & -> & Hr). exists d, income. auto.
      * intros (d & n & Hd & [= <-] & _ & Hr). exists d.
        destruct debt as [d'|]; [|discriminate].
        injection Hd as ->. auto.
    + intros debt' income' [= <- <-]. auto.
  - apply Qltb_nlt in Hpos.
    eexists. repeat split; simpl; try discriminate.
    intros (d & n & _ & [= <-] & Hn & _). contradiction.
Qed.

Example debt_check_decision_example :
  exists c,
    check6 sample_balance_sheet sample_financials = Ok c
    /\ passed c = false
    /\ ~ debt_manageable sample_balance_sheet sample_financials.
Proof.
  assert (Hwf : df_wf sample_financials)
    by (apply frame_wf; repeat constructor).
  destruct (debt_check_decision sample_balance_sheet sample_financials Hwf)
    as (c & Hc & _ & Hpass & _).
  exists c. split; [exact Hc|].
  assert (Hp : passed c = false).
  { vm_compute in Hc. injection Hc as <-. reflexivity. }
  split; [exact Hp|]. rewrite <- Hpass, Hp. discriminate.
Qed.

(** Missing or non-positive net income, or a balance sheet without the
    debt line item, is reported as insufficient data. *)
Lemma debt_check_insufficient (balance_sheet financials : DataFrame)
    (row : list cell) :
  df_wf financials ->
  empty balance_sheet = false -> empty financials = false ->
  rows financials !! "Net Income" = Some row ->
  rows balance_sheet !! "Long Term Debt" = None
  \/ head row = Some None
  \/ (exists income, head row = Some (Some income) /\ income <= 0) ->
  exists c,
    check6 balance_sheet financials = Ok c
    /\ passed c = false
    /\ details c = "Insufficient data for calculation".
Proof.
  intros Hwf Hb Hf Hrow Hcase. unfold check6.
  rewrite (check6_branch_eq _ _ Hwf), Hb, Hf, Hrow, get_latest. simpl.
  destruct Hcase as [Hd | [Hn | (income & Hn & Hle)]].
  - rewrite Hd. simpl. eexists. repeat split.
  - rewrite Hn.
    destruct (rows balance_sheet !! "Long Term Debt" ≫= head);
      eexists; repeat split.
  - rewrite Hn.
    assert (Hnot : Qltb 0 income = false) by (apply Qltb_nlt; lra).
    rewrite Hnot.
    destruct (rows balance_sheet !! "Long Term Debt" ≫= head);
      eexists; repeat split.
Qed.

(** C8 at a balance sheet whose latest long-term debt is missing (NaN)
    while the latest net income is 200: the guard [is not None] lets the
    NaN through, the quotient is NaN, and the check fails as a ratio that is
    too high, with the details of the example of the specification
    (debt 1000, ratio 5.00), not as insufficient data.  A balance sheet
    without the line item is reported as insufficient data. *)
Theorem debt_check_missing_debt :
  let financials := frame [2023]%Z [("Net Income", [Some 200])] in
  check6 (frame [2023]%Z [("Long Term Debt", [None])]) financials
  = Ok {| id := 6;
          name := "Long-term Debt/Net Profit < 4";
          description := "Debt management";
          passed := false;
          details := "High debt ratio: nan" |}
  /\ check6 (frame [2023]%Z [("Long Term Debt", [Some 1000])]) financials
     = Ok {| id := 6;
             name := "Long-term Debt/Net Profit < 4";
             description := "Debt management";
             passed := false;
             details := "High debt ratio: 5.00" |}
  /\ check6 (frame [2023]%Z [("Total Assets", [Some 5000])]) financials
     = Ok {| id := 6;
             name := "Long-term Debt/Net Profit < 4";
             description := "Debt management";
             passed := false;
             details := "Insufficient data for calculation" |}.
Proof. repeat split. Qed.

(** *** Check 1 *)

(** C10: a trailing P/E that is present and zero, with no PEG, passes check
    1 on the comparison [0 < 25] and is reported as N/A, because the details
    test the truth value of the ratio and not its presence. *)
Theorem zero_pe_passes_as_na (info : gmap string (option Q)) (pe : Q) :
  info !! "trailingPE" = Some (Some pe) ->
  pe == 0 ->
  info_get info "trailingPegRatio" = None ->
  passed (check1 info) = true
  /\ details (check1 info) = "PE: N/A, PEG: N/A".
Proof.
  intros Hpe Hzero Hpeg. unfold check1, info_get in *.
  rewrite Hpe. rewrite Hpeg. simpl.
  assert (Hlt : Qltb pe 25 = true) by (apply Qltb_lt; lra).
  assert (Heq : Qeq_bool pe 0 = true) by now apply Qeq_bool_iff.
  rewrite Hlt, Heq. split; reflexivity.
Qed.

Lemma zero_pe_passes_as_na_witness :
  passed (check1 (sample_info (Some 0) None)) = true
  /\ details (check1 (sample_info (Some 0) None)) = "PE: N/A, PEG: N/A".
Proof.
  apply (zero_pe_passes_as_na (sample_info (Some 0) None) 0);
    reflexivity.
Defined.

Example valuation_example :
  passed (check1 (sample_info (Some 20) None)) = true
  /\ details (check1 (sample_info (Some 20) None)) = "PE: 20.00, PEG: N/A".
Proof. split; reflexivity. Qed.

(** *** Check 10 *)


(** C2 at the table of the example with its columns most recent first, as
    the provider returns them: the derived series is fitted as [120, 80],
    and check 10 fails; in ascending period order it is [80, 120] and
    increasing, which is how the report lists it and how check 10 passes on
    the same table with the columns oldest first. *)
Theorem derived_fcf_newest_first :
  check10 cf_derived
  = Ok {| id := 10;
          name := "Free Cash Flow Growth";
          description := "5-year increasing trend";
          passed := false;
          details := "Declining calculated FCF" |}
  /\ (exists op capex,
        loc cf_derived "Operating Cash Flow" = Ok op
        /\ loc cf_derived "Capital Expenditures" = Ok capex
        /\ values (series_add op capex) = [Some 120; Some 80]
        /\ values (sort_index (series_add op capex)) = [Some 80; Some 120])
  /\ check_trend_with_regression [Some 80; Some 120] true = true
  /\ check10 cf_derived_ascending
     = Ok {| id := 10;
             name := "Free Cash Flow Growth";
             description := "5-year increasing trend";
             passed := true;
             details := "Improving calculated FCF" |}.
Proof.
  split; [reflexivity|]. split; [|split; reflexivity].
  eexists. eexists. repeat split.
Qed.

(** *** All ten checks *)

Lemma trend_check_ok (df : DataFrame) (item : string) (increasing : bool)
    (yes no : string) :
  exists p, trend_check df item increasing yes no = Ok p.
Proof.
  unfold trend_check, in_index, loc.
  destruct (empty df); simpl; [eauto|].
  destruct (rows df !! item); simpl; eauto.
Qed.

(** A table without the line item fails the trend check on it. *)
Lemma trend_check_missing (df : DataFrame) (item : string)
    (increasing : bool) (yes no : string) :
  rows df !! item = None ->
  trend_check df item increasing yes no = Ok (false, "No data available").
Proof.
  intros Hrow. unfold trend_check, in_index. rewrite Hrow.
  now rewrite andb_false_r.
Qed.

Lemma record_ok (m : result (bool * string)) (k : Z) (nm desc : string) :
  (exists p, m = Ok p) ->
  exists c,
    (m ≫= (λ '(pass, text),
             Ok {| id := k; name := nm; description := desc;
                   passed := pass; details := text |})) = Ok c
    /\ id c = k.
Proof.
  intros [[pass text] ->]. simpl. eexists. split; reflexivity.
Qed.

Lemma check2_ok (financials : DataFrame) :
  exists c, check2 financials = Ok c /\ id c = 2%Z.
Proof. apply record_ok, trend_check_ok. Qed.

Lemma check3_ok (financials : DataFrame) :
  exists c, check3 financials = Ok c /\ id c = 3%Z.
Proof. apply record_ok, trend_check_ok. Qed.

Lemma check4_ok (financials : DataFrame) :
  exists c, check4 financials = Ok c /\ id c = 4%Z.
Proof. apply record_ok, trend_check_ok. Qed.

Lemma check5_ok (balance_sheet : DataFrame) :
  exists c, check5 balance_sheet = Ok c /\ id c = 5%Z.
Proof.
  apply record_ok. destruct (empty balance_sheet) eqn:He; simpl; [eauto|].
  rewrite (iloc_col0_ok _ He). simpl.
  destruct (get (omap head (rows balance_sheet)) "Current Assets");
    destruct (get (omap head (rows balance_sheet)) "Current Liabilities");
    eauto.
Qed.

Lemma check6_ok (balance_sheet financials : DataFrame) :
  df_wf financials ->
  exists c, check6 balance_sheet financials = Ok c /\ id c = 6%Z.
Proof.
  intros Hwf.
  destruct (debt_check_decision balance_sheet financials Hwf)
    as (c & Hc & Hid & _).
  eauto.
Qed.

Lemma check7_ok (balance_sheet : DataFrame) :
  exists c, check7 balance_sheet = Ok c /\ id c = 7%Z.
Proof. apply record_ok, trend_check_ok. Qed.

Lemma check8_ok (balance_sheet : DataFrame) :
  exists c, check8 balance_sheet = Ok c /\ id c = 8%Z.
Proof. apply record_ok, trend_check_ok. Qed.

Lemma check9_ok (cashflow : DataFrame) :
  exists c, check9 cashflow = Ok c /\ id c = 9%Z.
Proof.
  destruct (check9_decision cashflow) as (c & Hc & Hid & _). eauto.
Qed.

Lemma check10_ok (cashflow : DataFrame) :
  exists c, check10 cashflow = Ok c /\ id c = 10%Z.
Proof.
  apply record_ok. unfold in_index, loc.
  destruct (empty cashflow); simpl; [eauto|].
  destruct (rows cashflow !! "Free Cash Flow"); simpl; [eauto|].
  destruct (rows cashflow !! "Operating Cash Flow"); simpl; [|eauto].
  destruct (rows cashflow !! "Capital Expenditures"); simpl; eauto.
Qed.

(** A balance sheet without one of the two line items fails check 5 as
    incomplete. *)
Lemma check5_incomplete (balance_sheet : DataFrame) :
  empty balance_sheet = false ->
  rows balance_sheet !! "Current Assets" = None
  \/ rows balance_sheet !! "Current Liabilities" = None ->
  check5 balance_sheet
  = Ok {| id := 5;
          name := "Current Assets > Current Liabilities";
          description := "Liquidity position";
          passed := false;
          details := "Balance sheet data incomplete" |}.
Proof.
  intros He Hmiss. unfold check5. rewrite He. run.
  rewrite (iloc_col0_ok _ He). run. rewrite !get_latest.
  destruct Hmiss as [-> | ->]; simpl;
    [|destruct (rows balance_sheet !! "Current Assets" ≫= head)];
    reflexivity.
Qed.

(** A cash-flow table with neither the free cash flow nor both of the rows
    it is derived from fails check 10. *)
Lemma check10_not_available (cashflow : DataFrame) :
  rows cashflow !! "Free Cash Flow" = None ->
  rows cashflow !! "Operating Cash Flow" = None
  \/ rows cashflow !! "Capital Expenditures" = None ->
  check10 cashflow
  = Ok {| id := 10;
          name := "Free Cash Flow Growth";
          description := "5-year increasing trend";
          passed := false;
          details := "No data available" |}.
Proof.
  intros Hfcf Hmiss. unfold check10, in_index.
  destruct (empty cashflow); run; [reflexivity|].
  rewrite Hfcf.
  destruct Hmiss as [-> | ->]; simpl;
    [|destruct (rows cashflow !! "Operating Cash Flow")]; reflexivity.
Qed.

(** The ten blocks all run, each on its own table, and append their
    results in the order 1 to 10. *)
Lemma run_checks_ten (info : gmap string (option Q))
    (financials balance_sheet cashflow : DataFrame) :
  df_wf financials ->
  exists c2 c3 c4 c5 c6 c7 c8 c9 c10,
    run_checks info financials balance_sheet cashflow
    = Ok [check1 info; c2; c3; c4; c5; c6; c7; c8; c9; c10]
    /\ check2 financials = Ok c2
    /\ check3 financials = Ok c3
    /\ check4 financials = Ok c4
    /\ check5 balance_sheet = Ok c5
    /\ check6 balance_sheet financials = Ok c6
    /\ check7 balance_sheet = Ok c7
    /\ check8 balance_sheet = Ok c8
    /\ check9 cashflow = Ok c9
    /\ check10 cashflow = Ok c10
    /\ map id [check1 info; c2; c3; c4; c5; c6; c7; c8; c9; c10]
       = [1; 2; 3; 4; 5; 6; 7; 8; 9; 10]%Z.
Proof.
  intros Hwf. unfold run_checks.
  destruct (check2_ok financials) as (c2 & H2 & I2).
  destruct (check3_ok financials) as (c3 & H3 & I3).
  destruct (check4_ok financials) as (c4 & H4 & I4).
  destruct (check5_ok balance_sheet) as (c5 & H5 & I5).
  destruct (check6_ok balance_sheet financials Hwf) as (c6 & H6 & I6).
  destruct (check7_ok balance_sheet) as (c7 & H7 & I7).
  destruct (check8_ok balance_sheet) as (c8 & H8 & I8).
  destruct (check9_ok cashflow) as (c9 & H9 & I9).
  destruct (check10_ok cashflow) as (c10 & H10 & I10).
  exists c2, c3, c4, c5, c6, c7, c8, c9, c10.
  rewrite H2, H3, H4, H5, H6, H7, H8, H9, H10. simpl.
  rewrite I2, I3, I4, I5, I6, I7, I8, I9, I10.
  repeat split; reflexivity.
Qed.

(** Whatever the tables hold, a list of checks that is returned has the
    ten entries 1 to 10. *)
Lemma run_checks_all_or_nothing (info : gmap string (option Q))
    (financials balance_sheet cashflow : DataFrame)
    (checks : list CheckResult) :
  run_checks info financials balance_sheet cashflow = Ok checks ->
  map id checks = [1; 2; 3; 4; 5; 6; 7; 8; 9; 10]%Z.
Proof.
  unfold run_checks.
  destruct (check2_ok financials) as (c2 & -> & I2).
  destruct (check3_ok financials) as (c3 & -> & I3).
  destruct (check4_ok financials) as (c4 & -> & I4).
  destruct (check5_ok balance_sheet) as (c5 & -> & I5).
  simpl.
  destruct (check6 balance_sheet financials) as [c6|] eqn:H6; simpl;
    [|discriminate].
  assert (I6 : id c6 = 6%Z).
  { unfold check6 in H6.
    destruct (check6_branch balance_sheet financials) as [[| |d n]|];
      simpl in H6; try discriminate; injection H6 as <-; reflexivity. }
  destruct (check7_ok balance_sheet) as (c7 & -> & I7).
  destruct (check8_ok balance_sheet) as (c8 & -> & I8).
  destruct (check9_ok cashflow) as (c9 & -> & I9).
  destruct (check10_ok cashflow) as (c10 & -> & I10).
  simpl. intros [= <-]. simpl.
  now rewrite I2, I3, I4, I5, I6, I7, I8, I9, I10.
Qed.

(** *** The report and the entry point *)

Section AnalysisFacts.

Context (float_str : Q -> string).
Context (yf_Ticker : string -> result Yf.Ticker).

Lemma series_section_ok (df : DataFrame) (item missing : string) :
  exists text, series_section df item missing = Ok text.
Proof.
  unfold series_section, in_index, loc.
  destruct (empty df); simpl; [eauto|].
  destruct (rows df !! item); simpl; eauto.
Qed.

Lemma shares_line_ok (info : gmap string (option Q)) :
  info !! "sharesOutstanding" <> Some None ->
  exists text,
    (if not_na (info_get_na info "sharesOutstanding") then
       text ← py_format_comma0 (info_get_na info "sharesOutstanding");
       Ok ("   Latest: " +:+ text +:+ nl)
     else Ok ("   Current shares outstanding not available" +:+ nl))
    = Ok text.
Proof.
  intros Hshares. unfold info_get_na.
  destruct (info !! "sharesOutstanding") as [[q|]|]; simpl; eauto.
  congruence.
Qed.

(** The report is produced unless the number of shares is [None]. *)
Lemma generate_detailed_analysis_ok (ticker : string)
    (info : gmap string (option Q))
    (financials balance_sheet cashflow : DataFrame) :
  info !! "sharesOutstanding" <> Some None ->
  exists text,
    generate_detailed_analysis float_str ticker info financials balance_sheet
      cashflow = Ok text.
Proof.
  intros Hshares. unfold generate_detailed_analysis.
  destruct (series_section_ok financials "Total Revenue"
              "Revenue data not available") as [t2 ->].
  destruct (series_section_ok financials "Operating Income"
              "Operating Income data not available") as [t3 ->].
  destruct (series_section_ok financials "Net Income"
              "Net Income data not available") as [t4 ->].
  destruct (series_section_ok balance_sheet "Stockholders Equity"
              "Stockholders' Equity data not available") as [t7 ->].
  destruct (shares_line_ok info Hshares) as [t8 ->].
  run.
  assert (Hbs : forall k : gmap string (option Q) -> result string,
            (forall col, exists t, k col = Ok t) ->
            forall msg, exists t,
              (if negb (empty balance_sheet)
               then iloc_col0 balance_sheet ≫= k else Ok msg) = Ok t).
  { intros k Hk msg. destruct (empty balance_sheet) eqn:He; simpl; [eauto|].
    rewrite (iloc_col0_ok _ He). apply Hk. }
  destruct (Hbs (fun latest_bs =>
                   Ok (latest_line latest_bs "Current Assets"
                         "Current Assets: "
                       +:+ latest_line latest_bs "Current Liabilities"
                             "Current Liabilities: "))
                ltac:(eauto)
                ("   Balance sheet data not available" +:+ nl)) as [t5 ->].
  destruct (Hbs (fun latest_bs => Ok (latest_line latest_bs "Long Term Debt" ""))
                ltac:(eauto)
                ("   Balance sheet data not available" +:+ nl)) as [t6 ->].
  run.
  assert (H8 : exists t,
            (if negb (empty balance_sheet)
                && in_index "Ordinary Shares Number" balance_sheet
             then loc balance_sheet "Ordinary Shares Number"
                  ≫= (fun row => Ok (series_lines "   " "" (sort_index row)))
             else Ok "") = Ok t).
  { unfold in_index, loc. destruct (empty balance_sheet); simpl; [eauto|].
    destruct (rows balance_sheet !! "Ordinary Shares Number"); simpl; eauto. }
  destruct H8 as [t8' ->]. run.
  destruct (empty cashflow) eqn:Hc; run.
  { eauto. }
  rewrite (iloc_col0_ok _ Hc). run.
  unfold in_index, loc.
  destruct (rows cashflow !! "Free Cash Flow"); run;
    [eauto|].
  destruct (rows cashflow !! "Operating Cash Flow");
    run; [|eauto].
  destruct (rows cashflow !! "Capital Expenditures");
    run; eauto.
Qed.

(** Once the data is retrieved, the table of the income statement is
    well formed and the number of shares is not [None], the analysis
    succeeds with the ten checks 1 to 10. *)
Lemma analysis_yields_ten_checks (ticker : string) (stock : Yf.Ticker)
    (info : gmap string (option Q))
    (financials balance_sheet cashflow : DataFrame) :
  yf_Ticker ticker = Ok stock ->
  Yf.info stock = Ok info ->
  (5 <= size info)%nat ->
  Yf.financials stock = Ok financials ->
  Yf.balance_sheet stock = Ok balance_sheet ->
  Yf.cashflow stock = Ok cashflow ->
  df_wf financials ->
  info !! "sharesOutstanding" <> Some None ->
  exists checks report,
    analyze_stock float_str yf_Ticker ticker = Success checks report
    /\ run_checks info financials balance_sheet cashflow = Ok checks
    /\ map id checks = [1; 2; 3; 4; 5; 6; 7; 8; 9; 10]%Z.
Proof.
  intros Hstock Hinfo Hsize Hfin Hbs Hcf Hwf Hshares.
  destruct (run_checks_ten info financials balance_sheet cashflow Hwf)
    as (c2 & c3 & c4 & c5 & c6 & c7 & c8 & c9 & c10 & Hrun & Hrest).
  destruct (generate_detailed_analysis_ok ticker info financials
              balance_sheet cashflow Hshares) as [report Hreport].
  exists [check1 info; c2; c3; c4; c5; c6; c7; c8; c9; c10], report.
  split; [|split; [exact Hrun | apply Hrest]].
  unfold analyze_stock, analyze_stock_body.
  rewrite Hstock. run. rewrite Hinfo.
  run.
  destruct (Nat.ltb_spec (size info) 5) as [Hlt | _]; [lia|].
  rewrite Hfin, Hbs, Hcf. run.
  rewrite Hrun. run. rewrite Hreport. reflexivity.
Qed.

(** The analysis returns the ten checks or none. *)
Lemma analysis_all_or_nothing (ticker : string) :
  match analyze_stock float_str yf_Ticker ticker with
  | Success checks _ => map id checks = [1; 2; 3; 4; 5; 6; 7; 8; 9; 10]%Z
  | Failure _ => True
  end.
Proof.
  unfold analyze_stock, analyze_stock_body.
  destruct (yf_Ticker ticker) as [stock|]; run; [|exact I].
  destruct (Yf.info stock) as [info|]; run; [|exact I].
  destruct (size info <? 5)%nat; [exact I|].
  destruct (Yf.financials stock) as [financials|]; run;
    [|exact I].
  destruct (Yf.balance_sheet stock) as [balance_sheet|];
    run; [|exact I].
  destruct (Yf.cashflow stock) as [cashflow|]; run;
    [|exact I].
  destruct (run_checks info financials balance_sheet cashflow)
    as [checks|] eqn:Hrun; run; [|exact I].
  destruct (generate_detailed_analysis float_str ticker info financials
              balance_sheet cashflow); run; [|exact I].
  exact (run_checks_all_or_nothing _ _ _ _ _ Hrun).
Qed.

(** C3: when obtaining the data fails, because the provider raises or the
    identifier is not recognised, the analysis is the one failure value
    with the error text; and no analysis ever returns a list of checks other
    than the ten. *)
Theorem retrieval_failure_is_overall_failure (ticker e : string) :
  RetrievalFails yf_Ticker ticker e ->
  analyze_stock float_str yf_Ticker ticker = Failure e
  /\ (forall t,
        match analyze_stock float_str yf_Ticker t with
        | Success checks _ =>
            map id checks = [1; 2; 3; 4; 5; 6; 7; 8; 9; 10]%Z
        | Failure _ => True
        end).
Proof.
  intros Hfail. split; [|exact analysis_all_or_nothing].
  unfold analyze_stock, analyze_stock_body.
  destruct Hfail as [e Hstock | stock e Hstock Hinfo
                    | stock info Hstock Hinfo Hsize
                    | stock info e Hstock Hinfo Hsize Hstmt];
    rewrite Hstock; run; try reflexivity;
    rewrite Hinfo; run; try reflexivity.
  - destruct (Nat.ltb_spec (size info) 5) as [_ | Hge]; [reflexivity | lia].
  - destruct (Nat.ltb_spec (size info) 5) as [Hlt | _]; [lia|].
    destruct Hstmt as [Hf | [(f & Hf & Hb) | (f & b & Hf & Hb & Hc)]].
    + now rewrite Hf.
    + rewrite Hf, Hb. reflexivity.
    + rewrite Hf, Hb, Hc. reflexivity.
Qed.

End AnalysisFacts.

Lemma retrieval_failure_is_overall_failure_witness :
  analyze_stock (fun _ => "") (fun _ => Raise "HTTP Error 404") "ZZZZ"
  = Failure "HTTP Error 404"
  /\ analyze_stock (fun _ => "")
       (fun _ => Ok (stock_of ∅ no_frame no_frame no_frame)) "ZZZZ"
     = Failure "No data found for ticker ZZZZ".
Proof.
  split.
  - apply (retrieval_failure_is_overall_failure (fun _ => "")
             (fun _ => Raise "HTTP Error 404") "ZZZZ" "HTTP Error 404").
    apply ticker_raises. reflexivity.
  - apply (retrieval_failure_is_overall_failure (fun _ => "")
             (fun _ => Ok (stock_of ∅ no_frame no_frame no_frame)) "ZZZZ"
             "No data found for ticker ZZZZ").
    apply (info_unrecognised _ _ (stock_of ∅ no_frame no_frame no_frame) ∅);
      [reflexivity | reflexivity | vm_compute; lia].
Defined.

Example sample_company_analysis :
  match
    analyze_stock (fun _ => "20.0")
      (fun _ => Ok (stock_of (sample_info (Some 20) None) sample_financials
                      sample_balance_sheet sample_cashflow)) "ACME"
  with
  | Success checks _ =>
      map passed checks
      = [true; true; true; true; true; false; true; true; true; true]
      /\ map details checks
         = ["PE: 20.00, PEG: N/A"; "Positive trend detected";
            "Consistent growth pattern"; "Strong profitability trend";
            "Current ratio: 1.67"; "High debt ratio: 5.00";
            "Growing shareholder value"; "Active share repurchase program";
            "Strong operational cash generation";
            "Consistent FCF improvement"]
  | Failure _ => False
  end.
Proof. vm_compute. split; reflexivity. Qed.

Example analysis_yields_ten_checks_example :
  exists checks report,
    analyze_stock (fun _ => "20.0")
      (fun _ => Ok (stock_of (sample_info (Some 20) None) sample_financials
                      sample_balance_sheet sample_cashflow)) "ACME"
    = Success checks report
    /\ map id checks = [1; 2; 3; 4; 5; 6; 7; 8; 9; 10]%Z.
Proof.
  destruct (analysis_yields_ten_checks (fun _ => "20.0")
              (fun _ => Ok (stock_of (sample_info (Some 20) None)
                              sample_financials sample_balance_sheet
                              sample_cashflow))
              "ACME" _ _ _ _ _ eq_refl eq_refl
              ltac:(vm_compute; lia) eq_refl eq_refl eq_refl
              ltac:(apply frame_wf; repeat constructor)
              ltac:(vm_compute; discriminate))
    as (checks & report & Hres & _ & Hids).
  eauto.
Qed.

(** C1 at a metrics dictionary whose number of shares is [None], the
    three statements being retrieved in full: the ten checks are computed,
    the report then fails to format [None], and the analysis is the failure
    value without any check.  The same holds with empty statements. *)
Theorem analysis_fails_on_missing_share_count (float_str : Q -> string) :
  (exists checks,
     run_checks info_no_shares sample_financials sample_balance_sheet
       sample_cashflow = Ok checks
     /\ map id checks = [1; 2; 3; 4; 5; 6; 7; 8; 9; 10]%Z
     /\ map passed checks
        = [true; true; true; true; true; false; true; true; true; true])
  /\ analyze_stock float_str
       (fun _ => Ok (stock_of info_no_shares sample_financials
                       sample_balance_sheet sample_cashflow)) "ACME"
     = Failure "unsupported format string passed to NoneType.__format__"
  /\ analyze_stock float_str
       (fun _ => Ok (stock_of info_no_shares no_frame no_frame no_frame))
       "ACME"
     = Failure "unsupported format string passed to NoneType.__format__".
Proof.
  split; [|split].
  - eexists. split; [reflexivity|]. split; reflexivity.
  - reflexivity.
  - reflexivity.
Qed.

End ScorerFacts.

(** ** The trend detector: the two directions *)

Module TrendMore.
Import Trend TrendAux TrendFacts.

(** X2: no series has both an increasing and a decreasing trend. *)
Theorem trend_never_both (values : list cell) :
  ~ (check_trend_with_regression values true = true
     /\ check_trend_with_regression values false = true).
Proof.
  intros [Hup Hdown].
  destruct (Nat.ltb_spec (length (finite values)) 2) as [Hfew | Hlen].
  - rewrite check_trend_few in Hup by exact Hfew. discriminate Hup.
  - rewrite check_trend_slope in Hup, Hdown by exact Hlen.
    apply Qltb_lt in Hup, Hdown. lra.
Qed.

End TrendMore.

(** ** Sorting by period: order of the columns *)

Module FrameMore.
Import Trend TrendAux Scorer ScorerAux FrameOrder TrendFacts ScorerFacts
  TrendMore.

Local Open Scope string_scope.

Lemma ts_leb_antisym (a b : Timestamp) :
  ts_leb a b = true -> ts_leb b a = true -> a = b.
Proof.
  destruct a as [ya ma da], b as [yb mb db]. unfold ts_leb. simpl.
  rewrite (Z.compare_antisym ya yb), (Z.compare_antisym ma mb).
  destruct (Z.compare_spec ya yb); simpl; try discriminate.
  destruct (Z.compare_spec ma mb); simpl; try discriminate.
  intros H1 H2. apply Z.leb_le in H1, H2. f_equal; lia.
Qed.

Lemma ts_leb_trans (a b c : Timestamp) :
  ts_leb a b = true -> ts_leb b c = true -> ts_leb a c = true.
Proof.
  destruct a as [ya ma da], b as [yb mb db], c as [yc mc dc].
  unfold ts_leb. simpl.
  destruct (Z.compare_spec ya yb); try discriminate;
    destruct (Z.compare_spec yb yc); try discriminate;
    destruct (Z.compare_spec ya yc); try lia; try reflexivity;
    destruct (Z.compare_spec ma mb); try discriminate;
    destruct (Z.compare_spec mb mc); try discriminate;
    destruct (Z.compare_spec ma mc); try lia; try reflexivity;
    intros H1 H2; apply Z.leb_le in H1, H2; apply Z.leb_le; lia.
Qed.

#[local] Instance period_le_trans : Transitive period_le.
Proof. intros a b c. apply ts_leb_trans. Qed.

Lemma sort_index_strongly_sorted (s : Series) :
  StronglySorted period_le (sort_index s).
Proof.
  apply Sorted_StronglySorted; [exact period_le_trans|].
  apply sort_index_sorted.
Qed.

(** A series has one ascending arrangement when its periods are distinct. *)
Lemma sorted_unique (l1 l2 : Series) :
  StronglySorted period_le l1 -> StronglySorted period_le l2 ->
  Permutation l1 l2 -> NoDup (map fst l1) -> l1 = l2.
Proof.
  intros H1. revert l2.
  induction H1 as [|a l1 Hs1 IH Ha]; intros l2 H2 Hperm Hnd.
  - apply Permutation_nil in Hperm. now subst.
  - destruct H2 as [|b l2 Hs2 Hb].
    { symmetry in Hperm. apply Permutation_nil in Hperm. discriminate. }
    assert (Hab : a = b).
    { assert (Hina : In a (b :: l2))
        by (eapply Permutation_in; [exact Hperm | now left]).
      assert (Hinb : In b (a :: l1))
        by (eapply Permutation_in; [symmetry; exact Hperm | now left]).
      destruct Hina as [-> | Hina]; [reflexivity|].
      destruct Hinb as [-> | Hinb]; [reflexivity|].
      rewrite Forall_forall in Ha, Hb.
      assert (Hkey : fst a = fst b).
      { apply ts_leb_antisym.
        - apply Ha. now apply list_elem_of_In.
        - apply Hb. now apply list_elem_of_In. }
      simpl in Hnd. apply NoDup_cons in Hnd. destruct Hnd as [Hnotin _].
      exfalso. apply Hnotin. rewrite Hkey.
      apply list_elem_of_In. apply in_map. exact Hinb. }
    subst b. f_equal. apply IH.
    + exact Hs2.
    + now apply Permutation_cons_inv in Hperm.
    + simpl in Hnd. apply NoDup_cons in Hnd. apply Hnd.
Qed.

(** The order in which the entries are stored does not show after
    [sort_index]. *)
Lemma sort_index_order_free (s1 s2 : Series) :
  Permutation s1 s2 -> NoDup (map fst s1) -> sort_index s1 = sort_index s2.
Proof.
  intros Hperm Hnd.
  apply sorted_unique; try apply sort_index_strongly_sorted.
  - rewrite <- (proj2 (sort_index_sorted s1)).
    rewrite <- (proj2 (sort_index_sorted s2)). exact Hperm.
  - assert (Hp : Permutation (map fst s1) (map fst (sort_index s1)))
      by apply Permutation_map, sort_index_sorted.
    rewrite <- Hp. exact Hnd.
Qed.



Lemma combine_columns_nodup (cols : list Timestamp) (row : list cell) :
  NoDup cols -> NoDup (map fst (combine cols row)).
Proof.
  intros Hnd. revert row.
  induction Hnd as [|t cols Hnotin Hnd IH]; intros [|c row]; simpl;
    try constructor.
  - intros Hin. apply Hnotin.
    apply list_elem_of_In in Hin. apply list_elem_of_In.
    apply in_map_iff in Hin. destruct Hin as ([t' c'] & Heq & Hin).
    simpl in Heq. subst t'. now apply in_combine_l in Hin.
  - apply IH.
Qed.

(** The outcome of the block shared by the five trend checks. *)
Lemma trend_check_row (df : DataFrame) (item : string) (row : list cell)
    (increasing : bool) (yes no : string) :
  empty df = false -> rows df !! item = Some row ->
  trend_check df item increasing yes no
  = let pass :=
      check_trend_with_regression
        (values (sort_index (combine (columns df) row))) increasing in
    Ok (pass, if pass then yes else no).
Proof.
  intros He Hrow. unfold trend_check, in_index, loc. now rewrite He, Hrow.
Qed.

Lemma trend_checks_block (item : string) (increasing : bool)
    (check : DataFrame -> result CheckResult) :
  In (item, increasing, check) trend_checks ->
  exists (k : Z) (nm desc yes no : string),
    forall df,
      check df
      = (trend_check df item increasing yes no ≫=
           (λ '(pass, text),
              Ok {| id := k; name := nm; description := desc;
                    passed := pass; details := text |})).
Proof.
  unfold trend_checks. simpl.
  intros [H | [H | [H | [H | [H | []]]]]]; injection H as <- <- <-;
    do 5 eexists; intros df; reflexivity.
Qed.

(** X7: the five trend checks (revenue, operating income, net income,
    equity, share count) give the same result whatever the order of the
    columns of the table, the periods being distinct: the line item is
    sorted by period before the trend is fitted. *)
Theorem trend_checks_ignore_column_order (item : string) (increasing : bool)
    (check : DataFrame -> result CheckResult) (df1 df2 : DataFrame)
    (row1 row2 : list cell) :
  In (item, increasing, check) trend_checks ->
  empty df1 = false -> empty df2 = false ->
  rows df1 !! item = Some row1 -> rows df2 !! item = Some row2 ->
  NoDup (columns df1) ->
  Permutation (combine (columns df1) row1) (combine (columns df2) row2) ->
  check df1 = check df2.
Proof.
  intros Hin He1 He2 Hr1 Hr2 Hnd Hperm.
  destruct (trend_checks_block _ _ _ Hin) as (k & nm & desc & yes & no & Hc).
  rewrite !Hc.
  rewrite (trend_check_row df1 item row1 increasing yes no He1 Hr1).
  rewrite (trend_check_row df2 item row2 increasing yes no He2 Hr2).
  cbn zeta.
  rewrite (sort_index_order_free _ _ Hperm
             (combine_columns_nodup _ row1 Hnd)).
  reflexivity.
Qed.

Lemma trend_checks_ignore_column_order_witness :
  check2 (frame [2023; 2022; 2021]%Z
            [("Total Revenue", [Some 3000; Some 2000; Some 1000])])
  = check2 (frame [2022; 2021; 2023]%Z
              [("Total Revenue", [Some 2000; Some 1000; Some 3000])]).
Proof.
  apply (trend_checks_ignore_column_order "Total Revenue" true check2
           (frame [2023; 2022; 2021]%Z
              [("Total Revenue", [Some 3000; Some 2000; Some 1000])])
           (frame [2022; 2021; 2023]%Z
              [("Total Revenue", [Some 2000; Some 1000; Some 3000])])
           [Some 3000; Some 2000; Some 1000]
           [Some 2000; Some 1000; Some 3000]).
  - simpl. auto.
  - reflexivity.
  - reflexivity.
  - reflexivity.
  - reflexivity.
  - simpl. repeat constructor; rewrite ?list_elem_of_In; simpl;
      intros H; repeat (destruct H as [H | H]; try discriminate H); exact H.
  - simpl. apply Permutation_cons_append.
Defined.


(** *** Check 10 *)




(** X10: when the table reports free cash flow, check 10 reads that row
    alone: neither the other rows nor the order of the columns change the
    result. *)
Theorem reported_fcf_decides_alone (cf1 cf2 : DataFrame)
    (row1 row2 : list cell) :
  empty cf1 = false -> empty cf2 = false ->
  rows cf1 !! "Free Cash Flow" = Some row1 ->
  rows cf2 !! "Free Cash Flow" = Some row2 ->
  NoDup (columns cf1) ->
  Permutation (combine (columns cf1) row1) (combine (columns cf2) row2) ->
  check10 cf1 = check10 cf2.
Proof.
  intros He1 He2 Hr1 Hr2 Hnd Hperm.
  unfold check10, in_index, loc. rewrite He1, He2, Hr1, Hr2. run.
  rewrite (sort_index_order_free _ _ Hperm
             (combine_columns_nodup _ row1 Hnd)).
  reflexivity.
Qed.

Lemma reported_fcf_decides_alone_witness :
  check10 (frame [2023; 2022]%Z
             [("Free Cash Flow", [Some 80; Some 120]);
              ("Operating Cash Flow", [Some 1; Some 2]);
              ("Capital Expenditures", [Some 3; Some 4])])
  = check10 (frame [2022; 2023]%Z [("Free Cash Flow", [Some 120; Some 80])]).
Proof.
  apply (reported_fcf_decides_alone
           (frame [2023; 2022]%Z
              [("Free Cash Flow", [Some 80; Some 120]);
               ("Operating Cash Flow", [Some 1; Some 2]);
               ("Capital Expenditures", [Some 3; Some 4])])
           (frame [2022; 2023]%Z [("Free Cash Flow", [Some 120; Some 80])])
           [Some 80; Some 120] [Some 120; Some 80]).
  - reflexivity.
  - reflexivity.
  - reflexivity.
  - reflexivity.
  - simpl. repeat constructor; rewrite ?list_elem_of_In; simpl;
      intros H; repeat (destruct H as [H | H]; try discriminate H); exact H.
  - simpl. apply perm_swap.
Defined.

End FrameMore.

(** ** Check 5, the report and the outcome of the analysis *)

Module ScorerMore.
Import Trend Scorer ScorerAux ScorerFacts.

Local Open Scope string_scope.

(** X11: check 5 returns a result for every balance sheet, liabilities of
    zero included (the quotient of two NumPy floats does not raise); it
    passes exactly when the latest current assets and current liabilities
    are both present and the assets exceed the liabilities. *)
Theorem liquidity_check (balance_sheet : DataFrame) :
  exists c,
    check5 balance_sheet = Ok c
    /\ id c = 5%Z
    /\ (passed c = true
        <-> exists assets liabilities : Q,
              latest_value balance_sheet "Current Assets" = Some assets
              /\ latest_value balance_sheet "Current Liabilities"
                 = Some liabilities
              /\ liabilities < assets).
Proof.
  unfold check5. destruct (empty balance_sheet) eqn:He; run.
  { eexists. split; [reflexivity|]. split; [reflexivity|]. simpl.
    rewrite !(latest_value_empty _ _ He). split.
    - discriminate.
    - intros (a & l & Ha & _). discriminate Ha. }
  rewrite (iloc_col0_ok _ He). run.
  rewrite !(latest_value_get _ _ He).
  destruct (get (omap head (rows balance_sheet)) "Current Assets")
    as [[a|]|];
    destruct (get (omap head (rows balance_sheet)) "Current Liabilities")
      as [[l|]|]; simpl;
    (eexists; split; [reflexivity|]; split; [reflexivity|]; simpl;
     split);
    try discriminate;
    try (intros (a' & l' & Ha & Hl & _); discriminate).
  - intros H. apply Qltb_lt in H. eauto.
  - intros (a' & l' & [= <-] & [= <-] & H). now apply Qltb_lt.
Qed.

Section ReportFacts.

Context (float_str : Q -> string).
Context (yf_Ticker : string -> result Yf.Ticker).

Lemma generate_detailed_analysis_none (ticker : string)
    (info : gmap string (option Q))
    (financials balance_sheet cashflow : DataFrame) :
  info !! "sharesOutstanding" = Some None ->
  generate_detailed_analysis float_str ticker info financials balance_sheet
    cashflow
  = Raise "unsupported format string passed to NoneType.__format__".
Proof.
  intros Hshares. unfold generate_detailed_analysis.
  destruct (series_section_ok financials "Total Revenue"
              "Revenue data not available") as [t2 ->].
  destruct (series_section_ok financials "Operating Income"
              "Operating Income data not available") as [t3 ->].
  destruct (series_section_ok financials "Net Income"
              "Net Income data not available") as [t4 ->].
  destruct (series_section_ok balance_sheet "Stockholders Equity"
              "Stockholders' Equity data not available") as [t7 ->].
  run.
  assert (Hna : info_get_na info "sharesOutstanding" = PyNone)
    by (unfold info_get_na; now rewrite Hshares).
  rewrite Hna. cbn [not_na py_format_comma0].
  destruct (empty balance_sheet) eqn:He; run.
  - reflexivity.
  - rewrite (iloc_col0_ok _ He). run. reflexivity.
Qed.

(** X12: the report is produced for all tables and metrics but one case:
    it raises, with the message of the failed format, exactly when the
    number of shares is in the dictionary with the value [None]. *)
Theorem report_fails_only_on_none_shares (ticker : string)
    (info : gmap string (option Q))
    (financials balance_sheet cashflow : DataFrame) :
  match
    generate_detailed_analysis float_str ticker info financials balance_sheet
      cashflow
  with
  | Ok _ => info !! "sharesOutstanding" <> Some None
  | Raise e =>
      info !! "sharesOutstanding" = Some None
      /\ e = "unsupported format string passed to NoneType.__format__"
  end.
Proof.
  destruct (info !! "sharesOutstanding") as [[q|]|] eqn:Hshares.
  - assert (Hne : info !! "sharesOutstanding" <> Some None)
      by (rewrite Hshares; discriminate).
    destruct (generate_detailed_analysis_ok float_str ticker info financials
                balance_sheet cashflow Hne) as [text ->].
    discriminate.
  - rewrite generate_detailed_analysis_none by exact Hshares.
    split; reflexivity.
  - assert (Hne : info !! "sharesOutstanding" <> Some None)
      by (rewrite Hshares; discriminate).
    destruct (generate_detailed_analysis_ok float_str ticker info financials
                balance_sheet cashflow Hne) as [text ->].
    discriminate.
Qed.

End ReportFacts.

(** X17: checks 5 and 9 read the first column of their table and nothing
    else: two tables whose first columns hold the same cells get the same
    result, whatever the other periods hold and whichever period the first
    column stands for. *)
Theorem latest_checks_read_first_column (df1 df2 : DataFrame) :
  empty df1 = empty df2 ->
  omap head (rows df1) = omap head (rows df2) ->
  check5 df1 = check5 df2 /\ check9 df1 = check9 df2.
Proof.
  intros He Hcol. unfold check5, check9. rewrite <- He.
  destruct (empty df1) eqn:He1; run; [split; reflexivity|].
  rewrite (iloc_col0_ok _ He1).
  rewrite (iloc_col0_ok df2) by now rewrite <- He.
  rewrite Hcol. split; reflexivity.
Qed.

Lemma latest_checks_read_first_column_witness :
  check5 (frame [2023; 2022]%Z
            [("Current Assets", [Some 500; Some 1]);
             ("Current Liabilities", [Some 300; Some 900])])
  = check5 (frame [2021]%Z
              [("Current Assets", [Some 500]);
               ("Current Liabilities", [Some 300])]).
Proof.
  apply (latest_checks_read_first_column
           (frame [2023; 2022]%Z
              [("Current Assets", [Some 500; Some 1]);
               ("Current Liabilities", [Some 300; Some 900])])
           (frame [2021]%Z
              [("Current Assets", [Some 500]);
               ("Current Liabilities", [Some 300])])).
  - reflexivity.
  - vm_compute. reflexivity.
Defined.

End ScorerMore.

(** ** The console variant: properties *)

Module ConsoleFacts.
Import Trend Scorer ScorerAux VariantAux ScorerFacts.

Local Open Scope string_scope.

(** *** The console blocks against the web blocks *)

Lemma agree_trend (df : DataFrame) (item : string) (increasing : bool)
    (yes no : string) (k : Z) (nm desc : string) :
  agree (trend_check df item increasing yes no ≫=
           (λ '(pass, text),
              Ok {| id := k; name := nm; description := desc;
                    passed := pass; details := text |}))
        (Console.trend_pass df item increasing).
Proof.
  unfold agree, trend_check, Console.trend_pass, in_index, loc.
  destruct (empty df); simpl; [reflexivity|].
  destruct (rows df !! item); simpl; reflexivity.
Qed.

Lemma agree_check5 (balance_sheet : DataFrame) :
  agree (check5 balance_sheet) (Console.check5_pass balance_sheet).
Proof.
  unfold agree, check5, Console.check5_pass.
  destruct (empty balance_sheet) eqn:He; run; [reflexivity|].
  rewrite (iloc_col0_ok _ He). run.
  destruct (get (omap head (rows balance_sheet)) "Current Assets");
    destruct (get (omap head (rows balance_sheet)) "Current Liabilities");
    reflexivity.
Qed.

Lemma agree_check6 (balance_sheet financials : DataFrame) :
  agree (check6 balance_sheet financials)
        (Console.check6_pass balance_sheet financials).
Proof.
  unfold agree, check6, check6_branch, Console.check6_pass.
  destruct (empty balance_sheet) eqn:Hb; run; [reflexivity|].
  destruct (empty financials) eqn:Hf; run; [reflexivity|].
  rewrite (iloc_col0_ok _ Hb). run.
  destruct (in_index "Net Income" financials); [|reflexivity].
  destruct (loc financials "Net Income") as [row|e]; run; [|reflexivity].
  destruct (iloc0 row) as [[income|]|e]; run; try reflexivity;
    destruct (get (omap head (rows balance_sheet)) "Long Term Debt");
    try reflexivity.
  destruct (Qltb 0 income); reflexivity.
Qed.

Lemma agree_check9 (cashflow : DataFrame) :
  agree (check9 cashflow) (Console.check9_pass cashflow).
Proof.
  unfold agree, check9, Console.check9_pass, op_exceeds.
  destruct (empty cashflow) eqn:He; run; [reflexivity|].
  rewrite (iloc_col0_ok _ He). run. reflexivity.
Qed.

Lemma agree_check10 (cashflow : DataFrame) :
  agree (check10 cashflow) (Console.check10_pass cashflow).
Proof.
  unfold agree, check10, Console.check10_pass, in_index, loc.
  destruct (empty cashflow); run; [reflexivity|].
  destruct (rows cashflow !! "Free Cash Flow"); run; [reflexivity|].
  destruct (rows cashflow !! "Operating Cash Flow"); run; [|reflexivity].
  destruct (rows cashflow !! "Capital Expenditures"); run; reflexivity.
Qed.

(** Takes the next block of both variants apart. *)
Ltac both_blocks H :=
  unfold agree in H;
  match type of H with
  | match ?web with _ => _ end =>
      destruct web;
      match type of H with
      | match ?console with _ => _ end => destruct console
      end
  end;
  try contradiction; run; [subst | subst; reflexivity].

(** X14: on the same metrics and statements the console checker and the
    web checker reach the same ten verdicts, in the same order; and one of
    them raises exactly when the other does, with the same exception. *)
Theorem console_agrees_with_web (info : gmap string (option Q))
    (financials balance_sheet cashflow : DataFrame) :
  match
    Scorer.run_checks info financials balance_sheet cashflow,
    Console.run_checks info financials balance_sheet cashflow
  with
  | Ok checks, Ok results => map passed checks = map snd results
  | Raise e, Raise e' => e = e'
  | _, _ => False
  end.
Proof.
  unfold Scorer.run_checks, Console.run_checks.
  pose proof (agree_trend financials "Total Revenue" true
                "Positive trend detected" "No clear growth trend" 2
                "Revenue Growth" "5-year increasing trend") as H2.
  change (agree (check2 financials)
            (Console.trend_pass financials "Total Revenue" true)) in H2.
  pose proof (agree_trend financials "Operating Income" true
                "Consistent growth pattern" "Declining or flat trend" 3
                "Operating Income Growth" "5-year increasing trend") as H3.
  change (agree (check3 financials)
            (Console.trend_pass financials "Operating Income" true)) in H3.
  pose proof (agree_trend financials "Net Income" true
                "Strong profitability trend" "Declining profitability" 4
                "Net Income Growth" "5-year increasing trend") as H4.
  change (agree (check4 financials)
            (Console.trend_pass financials "Net Income" true)) in H4.
  pose proof (agree_check5 balance_sheet) as H5.
  pose proof (agree_check6 balance_sheet financials) as H6.
  pose proof (agree_trend balance_sheet "Stockholders Equity" true
                "Growing shareholder value" "Declining equity trend" 7
                "Stockholders' Equity Growth" "5-year increasing trend")
    as H7.
  change (agree (check7 balance_sheet)
            (Console.trend_pass balance_sheet "Stockholders Equity" true))
    in H7.
  pose proof (agree_trend balance_sheet "Ordinary Shares Number" false
                "Active share repurchase program"
                "No significant buyback activity" 8
                "Shares Outstanding Decreasing" "Share buyback trend") as H8.
  change (agree (check8 balance_sheet)
            (Console.trend_pass balance_sheet "Ordinary Shares Number"
               false)) in H8.
  pose proof (agree_check9 cashflow) as H9.
  pose proof (agree_check10 cashflow) as H10.
  both_blocks H2. both_blocks H3. both_blocks H4. both_blocks H5.
  both_blocks H6. both_blocks H7. both_blocks H8. both_blocks H9.
  both_blocks H10.
  reflexivity.
Qed.

(** *** What the console variant returns *)

Lemma console_run_checks_length (info : gmap string (option Q))
    (financials balance_sheet cashflow : DataFrame) :
  match Console.run_checks info financials balance_sheet cashflow with
  | Ok results => length results = 10%nat
  | Raise _ => True
  end.
Proof.
  unfold Console.run_checks.
  repeat match goal with
         | |- context [mbind _ ?m] =>
             lazymatch m with
             | Ok _ => fail
             | Raise _ => fail
             | _ => destruct m; run; [|exact I]
             end
         end.
  reflexivity.
Qed.

Section ConsoleRun.

Context (upper : string -> string).
Context (yf_Ticker : string -> result Yf.Ticker).

(** X15: the console checker returns all or nothing, never a part of the
    list.  When one of the reads of the provider raises it prints one error
    line and returns the empty list; when one of the ten blocks raises it
    returns the empty list too; otherwise it returns the ten results of the
    blocks. *)
Theorem console_all_or_nothing (ticker : string) :
  match Console.retrieve yf_Ticker ticker with
  | Raise e =>
      Console.analyze_stock upper yf_Ticker ticker
      = (Console.error_line ticker e, [])
  | Ok (info, financials, balance_sheet, cashflow) =>
      match Console.run_checks info financials balance_sheet cashflow with
      | Raise e => snd (Console.analyze_stock upper yf_Ticker ticker) = []
      | Ok results =>
          snd (Console.analyze_stock upper yf_Ticker ticker) = results
          /\ length results = 10%nat
      end
  end.
Proof.
  unfold Console.analyze_stock.
  destruct (Console.retrieve yf_Ticker ticker)
    as [[[[info financials] balance_sheet] cashflow]|e]; [|reflexivity].
  pose proof (console_run_checks_length info financials balance_sheet
                cashflow) as Hlen.
  destruct (Console.run_checks info financials balance_sheet cashflow)
    as [results|e]; [|reflexivity].
  split; [reflexivity | exact Hlen].
Qed.

End ConsoleRun.

(** *** The score *)

Lemma passed_le_total (results : list (string * bool)) :
  (Console.passed_count results <= Console.total_count results)%nat.
Proof.
  unfold Console.passed_count, Console.total_count.
  induction results as [|[d pass] results IH]; simpl; [lia|].
  destruct pass; simpl; lia.
Qed.

Lemma band_threshold (j p t : nat) :
  (0 < t)%nat ->
  Qle_bool (inject_Z (20 * Z.of_nat j)) (Qnat p / Qnat t * 100)
  = (j * t <=? 5 * p)%nat.
Proof.
  intros Ht.
  assert (Hpos : 0 < Qnat t)
    by (change 0 with (Qnat 0); now apply Qnat_lt).
  set (x := Qnat p / Qnat t).
  assert (Hx : x * Qnat t == Qnat p) by (unfold x; field; lra).
  assert (Hiff : inject_Z (20 * Z.of_nat j) <= x * 100
                 <-> Qnat j * Qnat t <= 5 * Qnat p).
  { rewrite inject_Z_mult. fold (Qnat j). change (inject_Z 20) with 20.
    rewrite <- Hx. split; intros H; nra. }
  assert (Hnat : Qnat j * Qnat t <= 5 * Qnat p <-> (j * t <= 5 * p)%nat).
  { unfold Qnat. change 5 with (inject_Z 5).
    rewrite <- !inject_Z_mult, <- Zle_Qle. lia. }
  destruct (Nat.leb_spec (j * t) (5 * p)) as [Hle | Hgt].
  - apply Qle_bool_iff, Hiff, Hnat, Hle.
  - destruct (Qle_bool (inject_Z (20 * Z.of_nat j)) (x * 100)) eqn:Hb;
      [|reflexivity].
    apply Qle_bool_iff, Hiff, Hnat in Hb. lia.
Qed.

(** X16: the assessment printed under the score depends on the counts
    alone.  With [p] results passed out of [t]: excellent when
    [4 t <= 5 p], else good when [3 t <= 5 p], else fair when [2 t <= 5 p],
    else poor; and poor, without a division by zero, for no results at all.
    For ten results: 8 or more, 6 or 7, 4 or 5, 3 or fewer. *)
Theorem assessment_bands (results : list (string * bool)) :
  let p := Console.passed_count results in
  let t := Console.total_count results in
  (p <= t)%nat
  /\ Console.assessment results
     = if (t =? 0)%nat then "POOR - Significant financial risks"
       else if (4 * t <=? 5 * p)%nat then
         "EXCELLENT - Strong financial health"
       else if (3 * t <=? 5 * p)%nat then "GOOD - Solid financial position"
       else if (2 * t <=? 5 * p)%nat then "FAIR - Some concerns present"
       else "POOR - Significant financial risks".
Proof.
  intros p t. split; [apply passed_le_total|].
  unfold Console.assessment, Console.percentage. fold p t.
  destruct (Nat.eqb_spec t 0) as [Hzero | Hpos].
  - rewrite Hzero. reflexivity.
  - assert (Hlt : (0 <? t)%nat = true) by (apply Nat.ltb_lt; lia).
    rewrite Hlt.
    change 80 with (inject_Z (20 * Z.of_nat 4)).
    change 60 with (inject_Z (20 * Z.of_nat 3)).
    change 40 with (inject_Z (20 * Z.of_nat 2)).
    rewrite !(band_threshold _ p t) by lia. reflexivity.
Qed.

Example assessment_of_ten :
  map (fun p => Console.assessment
                  (repeat ("", true) p ++ repeat ("", false) (10 - p)))
      [10; 8; 7; 6; 5; 4; 3; 0]%nat
  = ["EXCELLENT - Strong financial health";
     "EXCELLENT - Strong financial health";
     "GOOD - Solid financial position"; "GOOD - Solid financial position";
     "FAIR - Some concerns present"; "FAIR - Some concerns present";
     "POOR - Significant financial risks";
     "POOR - Significant financial risks"].
Proof. reflexivity. Qed.

End ConsoleFacts.
